(** * Time-window gating of a camera and a sensor

    A shallow embedding of the Go sources
    [timeselectcamera/timeselectcamera.go], [timesyncsensor/timesyncsensor.go]
    and of the earlier revisions of both components that the repository
    carries, together with the properties of the schedule evaluator, of the
    configuration validation and of the gating wrapper. *)

From stdpp Require Import base strings gmap list.
From Stdlib Require Import ZArith Lia Ascii String.

Local Open Scope string_scope.
Local Open Scope Z_scope.

(** ** The part of Go's [time] package the components use

    Instants are nanoseconds since the Unix epoch, as an unbounded [Z]; a
    location is a fixed offset east of UTC with its abbreviation (zones with
    daylight-saving transitions are outside this model). *)
Module GoTime.

Record Location := mkLocation { zoneName : string; zoneOffset : Z }.

Definition UTC : Location := mkLocation "UTC" 0.
Definition FixedZone (name : string) (offset : Z) : Location :=
  mkLocation name offset.

Record Time := mkTime { unixNano : Z; Loc : Location }.

(** [time.Duration] counts nanoseconds. *)
Definition Second : Z := 1000000000.
Definition Hour : Z := 3600 * Second.

Definition secondsPerDay : Z := 86400.

(** Days from 0001-01-01 to 1970-01-01. *)
Definition unixEpochDays : Z := 719162.

Definition isLeap (year : Z) : bool :=
  (year mod 4 =? 0) && (negb (year mod 100 =? 0) || (year mod 400 =? 0)).

(** [daysBefore[m]]: days in a non-leap year before month [m+1]. *)
Definition daysBefore (m : Z) : Z :=
  match m with
  | 0 => 0 | 1 => 31 | 2 => 59 | 3 => 90 | 4 => 120 | 5 => 151 | 6 => 181
  | 7 => 212 | 8 => 243 | 9 => 273 | 10 => 304 | 11 => 334 | _ => 365
  end.

(** Days from 0001-01-01 to January 1 of [year]. *)
Definition daysSinceYear1 (year : Z) : Z :=
  let y := year - 1 in 365 * y + y / 4 - y / 100 + y / 400.

(** The day number (days since the Unix epoch) of a civil date; the month
    overflows into the year and the day is added linearly, as [time.Date]
    normalises its arguments. *)
Definition civilToDays (year month day : Z) : Z :=
  let m := month - 1 in
  let year := year + m / 12 in
  let m := m mod 12 in
  let d := daysSinceYear1 year + daysBefore m in
  let d := if isLeap year && (2 <=? m) then d + 1 else d in
  d + (day - 1) - unixEpochDays.

(** [time.Date] in a location of fixed offset: hour, minute, second and
    nanosecond overflow linearly. In a zone with daylight-saving transitions
    [time.Date] picks the offset in force at the wall-clock time it is given;
    such zones are not covered, and what is proved of anchored windows holds
    for fixed offsets only. *)
Definition Date (year month day hour min sec nsec : Z) (loc : Location) : Time :=
  let secs := civilToDays year month day * secondsPerDay
              + hour * 3600 + min * 60 + sec - zoneOffset loc in
  mkTime (secs * Second + nsec) loc.

(** The zero [Time{}]: 0001-01-01 00:00:00 UTC. *)
Definition zeroTime : Time := Date 1 1 1 0 0 0 0 UTC.

(** Seconds since the epoch shifted to the time's own location. *)
Definition localSec (t : Time) : Z := unixNano t / Second + zoneOffset (Loc t).
Definition localDays (t : Time) : Z := localSec t / secondsPerDay.

(** Year and day of the year (from 0) of a day number, by the 400-, 100-,
    4- and 1-year cycles. *)
Definition yearDay (days : Z) : Z * Z :=
  let d := days + unixEpochDays in
  let n400 := d / 146097 in
  let d := d - 146097 * n400 in
  let n100 := d / 36524 in
  let n100 := n100 - Z.shiftr n100 2 in
  let d := d - 36524 * n100 in
  let n4 := d / 1461 in
  let d := d - 1461 * n4 in
  let n := d / 365 in
  let n := n - Z.shiftr n 2 in
  let d := d - 365 * n in
  (1 + 400 * n400 + 100 * n100 + 4 * n4 + n, d).

(** Month (1..12) and day of the month of a day of the year. *)
Definition monthDay (year yday : Z) : Z * Z :=
  let leapDay := isLeap year && (yday =? 31 + 29 - 1) in
  if leapDay then (2, 29)
  else
    let day := if isLeap year && (31 + 29 - 1 <? yday) then yday - 1 else yday in
    let month := day / 31 in
    let end_ := daysBefore (month + 1) in
    if end_ <=? day then (month + 2, day - end_ + 1)
    else (month + 1, day - daysBefore month + 1).

Definition civilOfDays (days : Z) : Z * Z * Z :=
  let '(year, yday) := yearDay days in
  let '(month, day) := monthDay year yday in
  (year, month, day).

Definition Year (t : Time) : Z := fst (fst (civilOfDays (localDays t))).
Definition Month (t : Time) : Z := snd (fst (civilOfDays (localDays t))).
Definition Day (t : Time) : Z := snd (civilOfDays (localDays t)).
Definition HourOf (t : Time) : Z := (localSec t mod secondsPerDay) / 3600.
Definition Minute (t : Time) : Z := (localSec t mod 3600) / 60.
Definition SecondOf (t : Time) : Z := localSec t mod 60.

(** [Weekday]: 0 is Sunday; 1970-01-01 was a Thursday. *)
Definition Weekday (t : Time) : Z := (localDays t + 4) mod 7.

Definition weekdayName (wd : Z) : string :=
  match wd with
  | 0 => "Sunday" | 1 => "Monday" | 2 => "Tuesday" | 3 => "Wednesday"
  | 4 => "Thursday" | 5 => "Friday" | _ => "Saturday"
  end.

Definition Before (t u : Time) : bool := unixNano t <? unixNano u.
Definition After (t u : Time) : bool := unixNano u <? unixNano t.
Definition Add (t : Time) (d : Z) : Time := mkTime (unixNano t + d) (Loc t).

(** The round trip through the two calendar conversions, as a test. *)
Definition civilRoundTrip (days : Z) : bool :=
  let '(y, m, d) := civilOfDays days in civilToDays y m d =? days.

(** [checkFrom n d]: the round trip holds on the [n] day numbers from [d]. *)
Fixpoint checkFrom (n : nat) (d : Z) : bool :=
  match n with
  | O => true
  | S n' => if civilRoundTrip d then checkFrom n' (d + 1) else false
  end.

(** *** [time.Parse] at the three layouts the components use *)

Inductive ParseError :=
| errBad                      (* cannot parse the value as the layout *)
| errRange (field : string)   (* a field is out of range *)
| errExtra.                   (* extra text after the value *)

Definition isDigit (c : ascii) : bool :=
  let n := Z.of_N (N_of_ascii c) in (48 <=? n) && (n <=? 57).
Definition digitVal (c : ascii) : Z := Z.of_N (N_of_ascii c) - 48.

(** [getnum]: one or two digits; exactly two when [fixed]. *)
Definition getnum (s : string) (fixed : bool) : ParseError + (Z * string) :=
  match s with
  | String c0 rest =>
      if isDigit c0 then
        match rest with
        | String c1 rest' =>
            if isDigit c1 then inr (digitVal c0 * 10 + digitVal c1, rest')
            else if fixed then inl errBad else inr (digitVal c0, rest)
        | EmptyString => if fixed then inl errBad else inr (digitVal c0, rest)
        end
      else inl errBad
  | EmptyString => inl errBad
  end.

(** A literal character of the layout must be matched by the value. *)
Definition skip (c : ascii) (s : string) : ParseError + string :=
  match s with
  | String c' rest => if Ascii.eqb c c' then inr rest else inl errBad
  | EmptyString => inl errBad
  end.

Definition inRange (lo hi x : Z) (field : string) : ParseError + unit :=
  if (lo <=? x) && (x <=? hi) then inr tt else inl (errRange field).

#[local] Instance parse_bind : MBind (sum ParseError) := fun A B k m =>
  match m with inl e => inl e | inr a => k a end.

(** The leading run of digits of [s] and what follows it. *)
Fixpoint spanDigits (s : string) : string * string :=
  match s with
  | String c rest =>
      if isDigit c then let '(ds, r) := spanDigits rest in (String c ds, r)
      else (EmptyString, s)
  | EmptyString => (EmptyString, EmptyString)
  end.

(** [parseNanoseconds]: the first nine digits of a fraction, scaled. *)
Fixpoint fracNanos (width : nat) (ds : string) : Z :=
  match width with
  | O => 0
  | S w =>
      match ds with
      | String c rest => digitVal c * 10 ^ Z.of_nat w + fracNanos w rest
      | EmptyString => 0
      end
  end.

Definition commaOrPeriod (c : ascii) : bool :=
  Ascii.eqb c "." || Ascii.eqb c ",".

(** A fractional second in the value although the layout has none: it is
    accepted after the seconds field. *)
Definition fraction (s : string) : Z * string :=
  match s with
  | String c0 (String c1 _ as rest) =>
      if commaOrPeriod c0 && isDigit c1
      then let '(ds, r) := spanDigits rest in (fracNanos 9 ds, r)
      else (0, s)
  | _ => (0, s)
  end.

Definition parseHour (value : string) : ParseError + (Z * string) :=
  '(hour, value) ← getnum value false;
  _ ← inRange 0 23 hour "hour";
  inr (hour, value).

Definition parseMinute (value : string) : ParseError + (Z * string) :=
  '(min, value) ← getnum value true;
  _ ← inRange 0 59 min "minute";
  inr (min, value).

Definition parseSecond (value : string) : ParseError + (Z * Z * string) :=
  '(sec, value) ← getnum value true;
  _ ← inRange 0 59 sec "second";
  let '(nsec, value) := fraction value in
  inr (sec, nsec, value).

Definition noExtra (value : string) : ParseError + unit :=
  match value with EmptyString => inr tt | _ => inl errExtra end.

(** Layout ["15:04"]. *)
Definition parseHM (value : string) : ParseError + Time :=
  '(hour, value) ← parseHour value;
  value ← skip ":" value;
  '(min, value) ← parseMinute value;
  _ ← noExtra value;
  inr (Date 0 1 1 hour min 0 0 UTC).

(** Layout ["15:04:05"]. *)
Definition parseHMS (value : string) : ParseError + Time :=
  '(hour, value) ← parseHour value;
  value ← skip ":" value;
  '(min, value) ← parseMinute value;
  value ← skip ":" value;
  '(sec, nsec, value) ← parseSecond value;
  _ ← noExtra value;
  inr (Date 0 1 1 hour min sec nsec UTC).

Definition daysIn (month year : Z) : Z :=
  if (month =? 2) && isLeap year then 29
  else daysBefore month - daysBefore (month - 1).

Definition parseYear (value : string) : ParseError + (Z * string) :=
  match value with
  | String a (String b (String c (String d rest))) =>
      if isDigit a && isDigit b && isDigit c && isDigit d
      then inr (((digitVal a * 10 + digitVal b) * 10 + digitVal c) * 10
                + digitVal d, rest)
      else inl errBad
  | _ => inl errBad
  end.

(** The zone of layout element ["Z07:00"]: [Z], or a sign, hours, a colon
    and minutes. Hours and minutes are both read before their ranges are
    tested, the range error found last is the one reported, and a range
    error goes before any other. *)
Definition parseZone (value : string) : ParseError + (Z * string) :=
  match value with
  | String "Z" rest => inr (0, rest)
  | String sign (String h1 (String h2 (String ":" (String m1 (String m2 rest))))) =>
      match getnum (String h1 (String h2 EmptyString)) true with
      | inl err => inl err
      | inr (hr, _) =>
          match getnum (String m1 (String m2 EmptyString)) true with
          | inl err =>
              if 24 <? hr then inl (errRange "time zone offset hour")
              else inl err
          | inr (mm, _) =>
              if 60 <? mm then inl (errRange "time zone offset minute")
              else if 24 <? hr then inl (errRange "time zone offset hour")
              else
                let off := (hr * 60 + mm) * 60 in
                if Ascii.eqb sign "+" then inr (off, rest)
                else if Ascii.eqb sign "-" then inr (- off, rest)
                else inl errBad
          end
      end
  | _ => inl errBad
  end.

Definition zoneOf (value : string) (off : Z) : Location :=
  match value with
  | String "Z" _ => UTC
  | _ => FixedZone "" off
  end.

(** Layout [time.RFC3339], ["2006-01-02T15:04:05Z07:00"]. *)
Definition parseRFC3339 (value : string) : ParseError + Time :=
  '(year, value) ← parseYear value;
  value ← skip "-" value;
  '(month, value) ← getnum value true;
  _ ← inRange 1 12 month "month";
  value ← skip "-" value;
  '(day, value) ← getnum value true;
  value ← skip "T" value;
  '(hour, value) ← parseHour value;
  value ← skip ":" value;
  '(min, value) ← parseMinute value;
  value ← skip ":" value;
  '(sec, nsec, value) ← parseSecond value;
  let zone := value in
  '(off, value) ← parseZone value;
  _ ← noExtra value;
  _ ← inRange 1 (daysIn month year) day "day";
  let t := Date year month day hour min sec nsec UTC in
  inr (mkTime (unixNano t - off * Second) (zoneOf zone off)).

Inductive Layout := Layout_15_04 | Layout_15_04_05 | RFC3339.

(** [time.Parse] returns the zero time together with the error. *)
Definition Parse (layout : Layout) (value : string) : Time * option ParseError :=
  let r := match layout with
           | Layout_15_04 => parseHM value
           | Layout_15_04_05 => parseHMS value
           | RFC3339 => parseRFC3339 value
           end in
  match r with
  | inr t => (t, None)
  | inl e => (zeroTime, Some e)
  end.

(** *** [Time.Format] at layout ["2006-01-02 15:04:05 MST"] *)

Definition digitChar (d : Z) : ascii := ascii_of_N (Z.to_N (48 + d)).

Fixpoint utoa (fuel : nat) (x : Z) (acc : string) : string :=
  let acc := String (digitChar (x mod 10)) acc in
  match fuel with
  | O => acc
  | S fuel' => if x <? 10 then acc else utoa fuel' (x / 10) acc
  end.

Fixpoint zeros (n : nat) (acc : string) : string :=
  match n with O => acc | S n' => String "0" (zeros n' acc) end.

(** [appendInt]: decimal, zero-padded to [width], with a sign if negative. *)
Definition appendInt (x : Z) (width : nat) : string :=
  let u := Z.abs x in
  let ds := utoa (Z.to_nat (Z.log2 u)) u EmptyString in
  let padded := zeros (width - String.length ds) ds in
  if x <? 0 then String "-" padded else padded.

Definition formatZone (loc : Location) : string :=
  if String.eqb (zoneName loc) "" then
    let zone := Z.quot (zoneOffset loc) 60 in
    let sign := if zone <? 0 then "-" else "+" in
    let zone := Z.abs zone in
    sign ++ appendInt (zone / 60) 2 ++ appendInt (zone mod 60) 2
  else zoneName loc.

Definition FormatStamp (t : Time) : string :=
  appendInt (Year t) 4 ++ "-" ++ appendInt (Month t) 2 ++ "-"
  ++ appendInt (Day t) 2 ++ " " ++ appendInt (HourOf t) 2 ++ ":"
  ++ appendInt (Minute t) 2 ++ ":" ++ appendInt (SecondOf t) 2 ++ " "
  ++ formatZone (Loc t).

End GoTime.

(** ** What the components consume from the host runtime *)
Module Rdk.
Import GoTime.

(** A Go [interface{}] value, as far as the components inspect it. *)
Inductive Value :=
| VNil
| VBool (b : bool)
| VInt (n : Z)
| VString (s : string).

(** [map[string]interface{}]; [None] is the nil map. *)
Abbreviation Extra := (option (gmap string Value)).

(** Indexing a map, nil or not, yields the zero value for a missing key. *)
Definition index (extra : Extra) (key : string) : Value :=
  match extra with
  | Some m => default VNil (m !! key)
  | None => VNil
  end.

(** [v == true] for an interface value [v]. *)
Definition eqTrue (v : Value) : bool :=
  match v with VBool true => true | _ => false end.

Definition notNil (extra : Extra) : bool :=
  match extra with Some _ => true | None => false end.

(** Arguments of [fmt.Errorf]; the message is kept as format and arguments. *)
Inductive Arg :=
| AStr (s : string)
| AInt (n : Z)
| AParse (e : ParseError).

Inductive error :=
| ErrNoCaptureToStore                        (* data.ErrNoCaptureToStore *)
| Unimplemented                              (* errors.New("unimplemented") *)
| FieldRequired (path field : string)        (* utils.NewConfigValidationFieldRequiredError *)
| Errorf (format : string) (args : list Arg) (* fmt.Errorf *)
| ParseFailed (e : ParseError)               (* the error of time.Parse *)
| Failure (msg : string).                    (* any error of an inner capability *)

Inductive Level := Debug | Info | Warn | Error.

Inductive LogArg :=
| LStr (s : string)
| LBool (b : bool)
| LTime (t : Time)
| LParse (e : ParseError)
| LErr (e : error).

Record LogEntry := mkLog { level : Level; message : string; logArgs : list LogArg }.

(** The mutable surroundings of a wrapper: the state of the inner capability,
    what the logger has received, and whether the wrapper's own context was
    cancelled. *)
Record World (S : Type) := mkWorld {
  innerState : S;
  logged : list LogEntry;
  cancelled : bool
}.
Arguments mkWorld {S}.
Arguments innerState {S}.
Arguments logged {S}.
Arguments cancelled {S}.

(** State passing over the world. *)
Definition M (W A : Type) : Type := W -> A * W.

#[export] Instance M_ret {W} : MRet (M W) := fun A a w => (a, w).
#[export] Instance M_bind {W} : MBind (M W) := fun A B k m w =>
  let '(a, w') := m w in k a w'.

Definition log {S} (lvl : Level) (msg : string) (args : list LogArg)
  : M (World S) unit :=
  fun w => (tt, mkWorld (innerState w) (logged w ++ [mkLog lvl msg args])
                        (cancelled w)).

(** Running an operation of the inner capability on its state. *)
Definition call {S A} (op : S -> A * S) : M (World S) A :=
  fun w => let '(a, s') := op (innerState w) in
           (a, mkWorld s' (logged w) (cancelled w)).

(** [camera.ImageMetadata] and [camera.Properties]. *)
Record ImageMetadata := mkMeta { MimeType : string }.

Record Properties := mkProps {
  SupportsPCD : bool;
  ImageType : string;
  MimeTypes : list string
}.

(** The [camera.Camera] interface, as far as the wrapper calls it. *)
Record Camera (S : Type) := mkCamera {
  cam_Image : string -> Extra -> S -> (list Z * ImageMetadata * option error) * S;
  cam_Properties : S -> (Properties * option error) * S
}.
Arguments mkCamera {S}.
Arguments cam_Image {S}.
Arguments cam_Properties {S}.

(** [resource.Config], as far as the components read it: the name of the
    resource and the outcome of [resource.NativeConfig] on it. *)
Record RawConfig (C : Type) := mkRawConfig {
  ResourceName : string;
  NativeConfig : error + C
}.
Arguments mkRawConfig {C}.
Arguments ResourceName {C}.
Arguments NativeConfig {C}.

(** [resource.Dependencies], by the outcome of [camera.FromDependencies]
    for each name. *)
Definition Dependencies (S : Type) : Type := string -> error + Camera S.

(** The error of a constructor: one passed on as it is, or one wrapped by
    [fmt.Errorf] with [%w]. *)
Inductive BuildError :=
| Plain (e : error)
| Wrapf (format : string) (args : list Arg) (cause : error).

End Rdk.

(** ** [timeselectcamera/timeselectcamera.go] *)
Module TimeSelectCamera.
Import GoTime Rdk.

(** Start and end of a weekday, [HH:MM:SS]. *)
Record ScheduleHours := mkScheduleHours { sh_Start : string; sh_End : string }.

(** An explicit range of RFC 3339 timestamps. *)
Record DateRange := mkDateRange { dr_Start : string; dr_End : string }.

Record Config := mkConfig {
  Camera : string;
  StartHours : string;
  EndHours : string;
  WeeklySchedule : gmap string ScheduleHours;
  Schedule : list DateRange
}.

Definition nonEmpty (s : string) : bool := negb (String.eqb s "").

(** The three tests at the head of [Validate]. *)
Definition hours (cfg : Config) : bool :=
  nonEmpty (StartHours cfg) && nonEmpty (EndHours cfg).
Definition weekly (cfg : Config) : bool :=
  (0 <? size (WeeklySchedule cfg))%nat.
Definition dates (cfg : Config) : bool :=
  (0 <? List.length (Schedule cfg))%nat.

Definition days : list string :=
  ["mon"; "tue"; "wed"; "thu"; "fri"; "sat"; "sun"].

Definition validateHours (path : string) (cfg : Config) : option error :=
  match Parse Layout_15_04 (StartHours cfg) with
  | (_, Some err) =>
      Some (Errorf "%s: invalid start_hours %q: %w"
                   [AStr path; AStr (StartHours cfg); AParse err])
  | (_, None) =>
      match Parse Layout_15_04 (EndHours cfg) with
      | (_, Some err) =>
          Some (Errorf "%s: invalid end_hours %q: %w"
                       [AStr path; AStr (EndHours cfg); AParse err])
      | (_, None) => None
      end
  end.

(** The loop over the seven weekday names; the first failure returns. *)
Fixpoint validateWeekly (path : string) (ws : gmap string ScheduleHours)
         (ds : list string) : option error :=
  match ds with
  | [] => None
  | day :: rest =>
      match ws !! day with
      | None => Some (Errorf "%s: missing weekly_schedule for %s"
                             [AStr path; AStr day])
      | Some sh =>
          if String.eqb (sh_Start sh) "" || String.eqb (sh_End sh) "" then
            Some (Errorf "%s: weekly_schedule[%s] must have start and end"
                         [AStr path; AStr day])
          else
            match Parse Layout_15_04_05 (sh_Start sh) with
            | (_, Some err) =>
                Some (Errorf "%s: invalid weekly_schedule[%s].Start %q: %w"
                             [AStr path; AStr day; AStr (sh_Start sh); AParse err])
            | (_, None) =>
                match Parse Layout_15_04_05 (sh_End sh) with
                | (_, Some err) =>
                    Some (Errorf "%s: invalid weekly_schedule[%s].End %q: %w"
                                 [AStr path; AStr day; AStr (sh_End sh); AParse err])
                | (_, None) => validateWeekly path ws rest
                end
            end
      end
  end.

(** The loop over the explicit ranges, [i] being the index of the head. *)
Fixpoint validateDates (path : string) (i : Z) (sched : list DateRange)
  : option error :=
  match sched with
  | [] => None
  | dr :: rest =>
      match Parse RFC3339 (dr_Start dr) with
      | (_, Some err) =>
          Some (Errorf "%s: schedule[%d].start invalid timestamp %q: %w"
                       [AStr path; AInt i; AStr (dr_Start dr); AParse err])
      | (start, None) =>
          match Parse RFC3339 (dr_End dr) with
          | (_, Some err) =>
              Some (Errorf "%s: schedule[%d].end invalid timestamp %q: %w"
                           [AStr path; AInt i; AStr (dr_End dr); AParse err])
          | (end_, None) =>
              if negb (Before start end_) then
                Some (Errorf "%s: schedule[%d] start must be before end"
                             [AStr path; AInt i])
              else validateDates path (i + 1) rest
          end
      end
  end.

Definition when (b : bool) (check : option error) : option error :=
  if b then check else None.

(** [Config.Validate]: the error, or the names of the dependencies. *)
Definition Validate (cfg : Config) (path : string) : error + list string :=
  if String.eqb (Camera cfg) "" then inl (FieldRequired path "camera")
  else if negb (hours cfg || weekly cfg || dates cfg) then
    inl (Errorf "%s: must specify at least one of start_hours/end_hours, weekly_schedule, or schedule"
                [AStr path])
  else
    match when (hours cfg) (validateHours path cfg) with
    | Some err => inl err
    | None =>
        match when (weekly cfg) (validateWeekly path (WeeklySchedule cfg) days) with
        | Some err => inl err
        | None =>
            match when (dates cfg) (validateDates path 0 (Schedule cfg)) with
            | Some err => inl err
            | None => inr [Camera cfg]
            end
        end
    end.

Definition ErrNoCapture : error := ErrNoCaptureToStore.
Definition ErrUnimplemented : error := Unimplemented.

(** The wrapper; its logger and its cancel function act on the world. *)
Record timedCamera (S : Type) := mkTimedCamera {
  name : string;
  cfg : Config;
  inner : Rdk.Camera S
}.
Arguments mkTimedCamera {S}.
Arguments name {S}.
Arguments cfg {S}.
Arguments inner {S}.

Definition toLowerAscii (c : ascii) : ascii :=
  let n := N_of_ascii c in
  if ((65 <=? n) && (n <=? 90))%N then ascii_of_N (n + 32) else c.

Fixpoint ToLower (s : string) : string :=
  match s with
  | EmptyString => EmptyString
  | String c rest => String (toLowerAscii c) (ToLower rest)
  end.

(** [strings.ToLower(t.Weekday().String()[:3])]. *)
Definition dayKey (t : Time) : string :=
  ToLower (String.substring 0 3 (weekdayName (Weekday t))).

(** The loop over the explicit ranges of [inWindow]. *)
Fixpoint inRanges (t : Time) (sched : list DateRange) : bool :=
  match sched with
  | [] => false
  | dr :: rest =>
      let start := fst (Parse RFC3339 (dr_Start dr)) in
      let end_ := fst (Parse RFC3339 (dr_End dr)) in
      if negb (Before t start) && negb (After t end_) then true
      else inRanges t rest
  end.

(** [inWindow]: is [t] within any configured window. *)
Definition inWindow (c : Config) (t : Time) : bool :=
  if nonEmpty (StartHours c) && nonEmpty (EndHours c) then
    let sh := fst (Parse Layout_15_04 (StartHours c)) in
    let eh := fst (Parse Layout_15_04 (EndHours c)) in
    let start := Date (Year t) (Month t) (Day t) (HourOf sh) (Minute sh) 0 0 (Loc t) in
    let end_ := Date (Year t) (Month t) (Day t) (HourOf eh) (Minute eh) 0 0 (Loc t) in
    let end_ := if After start end_ then Add end_ (24 * Hour) else end_ in
    negb (Before t start) && negb (After t end_)
  else
    let today :=
      if (0 <? size (WeeklySchedule c))%nat
      then WeeklySchedule c !! dayKey t else None in
    match today with
    | Some sh =>
        let ts := fst (Parse Layout_15_04_05 (sh_Start sh)) in
        let te := fst (Parse Layout_15_04_05 (sh_End sh)) in
        let start := Date (Year t) (Month t) (Day t)
                          (HourOf ts) (Minute ts) (SecondOf ts) 0 (Loc t) in
        let end_ := Date (Year t) (Month t) (Day t)
                         (HourOf te) (Minute te) (SecondOf te) 0 (Loc t) in
        let end_ := if After start end_ then Add end_ (24 * Hour) else end_ in
        negb (Before t start) && negb (After t end_)
    | None => inRanges t (Schedule c)
    end.

Section Wrapper.
Context {S : Type}.

(** The test of [Image] for a call of the scheduled-capture subsystem. *)
Definition fromDataManagement (extra : Extra) : bool :=
  notNil extra && eqTrue (index extra "fromDataManagement").

(** [Image]; [now] is what [time.Now()] returns during the call. *)
Definition Image (c : timedCamera S) (now : Time) (mimeType : string)
           (extra : Extra)
  : M (World S) (list Z * ImageMetadata * option error) :=
  if fromDataManagement extra then
    if negb (inWindow (cfg c) now) then
      _ ← log Info "%s: time %v outside window, skipping"
              [LStr (name c); LTime now];
      mret ([], mkMeta "", Some ErrNoCapture)
    else call (cam_Image (inner c) mimeType extra)
  else call (cam_Image (inner c) mimeType extra).

(** [Images], [NextPointCloud] and [DoCommand] are unimplemented; the nil
    results are left out. *)
Definition Images (c : timedCamera S) : M (World S) (option error) :=
  mret (Some ErrUnimplemented).

Definition NextPointCloud (c : timedCamera S) : M (World S) (option error) :=
  mret (Some ErrUnimplemented).

Definition DoCommand (c : timedCamera S) (cmd : Extra)
  : M (World S) (option error) :=
  mret (Some ErrUnimplemented).

(** [Close] calls the cancel function of the wrapper's context. *)
Definition Close (c : timedCamera S) : M (World S) (option error) :=
  fun w => (None, mkWorld (innerState w) (logged w) true).

Definition Name (c : timedCamera S) : string := name c.

(** [Properties] proxies to the inner camera and disables PCD. *)
Definition Properties (c : timedCamera S)
  : M (World S) (Rdk.Properties * option error) :=
  '(p, err) ← call (cam_Properties (inner c));
  let p := match err with
           | None => mkProps false (ImageType p) (MimeTypes p)
           | Some _ => p
           end in
  mret (p, err).

End Wrapper.

Section Lifecycle.
Context {S : Type}.

(** The fields of a [timedCamera] that [Reconfigure] assigns; the inner
    camera is nil after a resolution that failed. *)
Record timedCameraFields := mkFields {
  f_name : string;
  f_cfg : Config;
  f_inner : option (Rdk.Camera S)
}.

Definition fieldsOf (c : timedCamera S) : timedCameraFields :=
  mkFields (name c) (cfg c) (Some (inner c)).

(** [newTimedCamera] constructs and validates a [timedCamera]. *)
Definition newTimedCamera (deps : Dependencies S) (rawConf : RawConfig Config)
  : BuildError + timedCamera S :=
  match NativeConfig rawConf with
  | inl err => inl (Plain err)
  | inr conf =>
      match Validate conf (ResourceName rawConf) with
      | inl err => inl (Plain err)
      | inr _ =>
          match deps (Camera conf) with
          | inl err =>
              inl (Wrapf "%s: failed to resolve camera: %w"
                         [AStr (ResourceName rawConf)] err)
          | inr innerCam => inr (mkTimedCamera (ResourceName rawConf) conf innerCam)
          end
      end
  end.

(** [Reconfigure]: the error, and the fields as the call leaves them. *)
Definition Reconfigure (c : timedCameraFields) (deps : Dependencies S)
           (rawConf : RawConfig Config)
  : M (World S) (option error * timedCameraFields) :=
  match NativeConfig rawConf with
  | inl err =>
      _ ← log Warn "%s: reconfigure parse error: %v"
              [LStr (ResourceName rawConf); LErr err];
      mret (Some err, c)
  | inr conf =>
      match Validate conf (ResourceName rawConf) with
      | inl err => mret (Some err, c)
      | inr _ =>
          match deps (Camera conf) with
          | inr innerCam =>
              mret (None, mkFields (ResourceName rawConf) conf (Some innerCam))
          | inl err =>
              mret (Some err, mkFields (ResourceName rawConf) conf None)
          end
      end
  end.

(** What a wrapper can become: constructed, then reconfigured any number of
    times in any world. *)
Inductive reachable : timedCameraFields -> Prop :=
| reach_new deps rawConf c :
    newTimedCamera deps rawConf = inr c -> reachable (fieldsOf c)
| reach_reconfigure c deps rawConf w :
    reachable c -> reachable (snd (fst (Reconfigure c deps rawConf w))).

End Lifecycle.

Arguments timedCameraFields : clear implicits.

End TimeSelectCamera.

(** ** [timesyncsensor/timesyncsensor.go]: the sensor reporting [should_sync] *)
Module TimeSyncSensor.
Import GoTime Rdk.

Record Config := mkConfig { StartHours : string; EndHours : string }.

Definition Validate (cfg : Config) (path : string) : error + list string :=
  if String.eqb (StartHours cfg) "" || String.eqb (EndHours cfg) "" then
    inl (Errorf "start_hours and end_hours are required for component %q"
                [AStr path])
  else
    match Parse Layout_15_04 (StartHours cfg) with
    | (_, Some _) =>
        inl (Errorf "invalid start_hours format (HH:MM) for component %q"
                    [AStr path])
    | (_, None) =>
        match Parse Layout_15_04 (EndHours cfg) with
        | (_, Some _) =>
            inl (Errorf "invalid end_hours format (HH:MM) for component %q"
                        [AStr path])
        | (_, None) => inr []
        end
    end.

Record timeSensor := mkTimeSensor { name : string; cfg : Config }.

(** [Readings]; the sensor has no inner capability, its world carries the
    logger only. [currentTime] is what [time.Now()] returns. *)
Definition Readings (s : timeSensor) (currentTime : Time) (extra : Extra)
  : M (World unit) (error + gmap string Value) :=
  match Parse Layout_15_04 (StartHours (cfg s)) with
  | (_, Some err) =>
      _ ← log Error "Invalid start time format: %v" [LParse err];
      mret (inl (ParseFailed err))
  | (startTime, None) =>
      match Parse Layout_15_04 (EndHours (cfg s)) with
      | (_, Some err) =>
          _ ← log Error "Invalid end time format: %v" [LParse err];
          mret (inl (ParseFailed err))
      | (endTime, None) =>
          let startTime :=
            Date (Year currentTime) (Month currentTime) (Day currentTime)
                 (HourOf startTime) (Minute startTime) 0 0 (Loc currentTime) in
          let endTime :=
            Date (Year currentTime) (Month currentTime) (Day currentTime)
                 (HourOf endTime) (Minute endTime) 0 0 (Loc currentTime) in
          let '(endTime, overnight) :=
            if After startTime endTime
            then (Add endTime (24 * Hour), true) else (endTime, false) in
          let shouldSync :=
            negb (Before currentTime startTime)
            && negb (After currentTime endTime) in
          mret (inr (list_to_map
            [("should_sync", VBool shouldSync);
             ("overnight_time_range", VBool overnight);
             ("current_time", VString (FormatStamp currentTime));
             ("start_time", VString (FormatStamp startTime));
             ("end_time", VString (FormatStamp endTime));
             ("currentTime.Before(startTime)",
              VBool (Before currentTime startTime));
             ("currentTime.After(endTime)",
              VBool (After currentTime endTime))]))
      end
  end.

Definition DoCommand (s : timeSensor) (cmd : Extra)
  : M (World unit) (option error) :=
  mret (Some Unimplemented).

(** [newtimeSensor]: the configuration is taken as it is converted. *)
Definition newtimeSensor (rawConf : RawConfig Config) : error + timeSensor :=
  match NativeConfig rawConf with
  | inl err => inl err
  | inr conf => inr (mkTimeSensor (ResourceName rawConf) conf)
  end.

(** [Reconfigure]: the error, and the sensor as the call leaves it. *)
Definition Reconfigure (s : timeSensor) (rawConf : RawConfig Config)
  : M (World unit) (option error * timeSensor) :=
  match NativeConfig rawConf with
  | inl err =>
      _ ← log Warn "Error parsing new configuration: %v" [LErr err];
      mret (Some err, s)
  | inr newConfig => mret (None, mkTimeSensor (ResourceName rawConf) newConfig)
  end.

(** [Close] calls the cancel function of the sensor's context. *)
Definition Close (s : timeSensor) : M (World unit) (option error) :=
  fun w => (None, mkWorld (innerState w) (logged w) true).

End TimeSyncSensor.

(** ** The revision of the sensor reporting [within_time_range]
    (second part of [timesyncsensor/timesyncsensor.go]) *)
Module TimeSyncSensorRange.
Import GoTime Rdk.

Record Config := mkConfig { StartHours : string; EndHours : string }.

Record timeSensor := mkTimeSensor { name : string; cfg : Config }.

Definition Readings (s : timeSensor) (currentTime : Time) (extra : Extra)
  : M (World unit) (error + gmap string Value) :=
  match Parse Layout_15_04 (StartHours (cfg s)) with
  | (_, Some err) =>
      _ ← log Error "Invalid start time format: %v" [LParse err];
      mret (inl (ParseFailed err))
  | (startTime, None) =>
      match Parse Layout_15_04 (EndHours (cfg s)) with
      | (_, Some err) =>
          _ ← log Error "Invalid end time format: %v" [LParse err];
          mret (inl (ParseFailed err))
      | (endTime, None) =>
          let startTime :=
            Date (Year currentTime) (Month currentTime) (Day currentTime)
                 (HourOf startTime) (Minute startTime) 0 0 (Loc currentTime) in
          let endTime :=
            Date (Year currentTime) (Month currentTime) (Day currentTime)
                 (HourOf endTime) (Minute endTime) 0 0 (Loc currentTime) in
          let withinTimeRange :=
            After currentTime startTime && Before currentTime endTime in
          mret (inr (list_to_map
            [("within_time_range", VBool withinTimeRange)]))
      end
  end.

End TimeSyncSensorRange.

(** ** The revision of the camera that gates its image stream
    ([timedStream.Next]) *)
Module TimeSelectCameraStream.
Import GoTime Rdk.

Record Config := mkConfig {
  Camera : string; StartHours : string; EndHours : string
}.

Section Stream.
(** The state of the inner stream, its images and their release functions. *)
Context {S Img Release : Type}.

(** A [context.Context]: the [Extra] that [camera.FromContext] finds, if
    the context carries one. *)
Record Context_ := mkContext { ctxExtra : option Extra }.

(** [gostream.VideoStream]. *)
Record VideoStream := mkVideoStream {
  vs_Next : Context_ -> S -> (option Img * option Release * option error) * S
}.

Record timedCamera := mkTimedCamera { name : string; cfg : Config }.

Record timedStream := mkTimedStream {
  cameraStream : VideoStream;
  c : timedCamera
}.

(** The tail of [Next]: the next image of the inner stream. *)
Definition nextImage (ts : timedStream) (ctx : Context_)
  : M (World S) (option Img * option Release * option error) :=
  '(img, release, err) ← call (vs_Next (cameraStream ts) ctx);
  match err with
  | Some e =>
      _ ← log Error "Current time is outside capture hours (overnight: %v); skipping image capture"
              [LErr e];
      mret (None, None, Some e)
  | None => mret (img, release, None)
  end.

(** [timedStream.Next]; [currentTime] is what [time.Now()] returns. *)
Definition Next (ts : timedStream) (ctx : Context_) (currentTime : Time)
  : M (World S) (option Img * option Release * option error) :=
  match ctxExtra ctx with
  | None =>
      _ ← log Debug "No extra data in context; proceeding without DataManager checks" [];
      call (vs_Next (cameraStream ts) ctx)
  | Some extra =>
      let marked := notNil extra && eqTrue (index extra "fromDataManagement") in
      _ ← log Debug "" [LBool marked];
      if marked then
        _ ← log Debug "DataManager request" [];
        match Parse Layout_15_04 (StartHours (cfg (c ts))) with
        | (_, Some err) =>
            _ ← log Error "Invalid start time format: %v" [LParse err];
            mret (None, None, Some (ParseFailed err))
        | (startTime, None) =>
            match Parse Layout_15_04 (EndHours (cfg (c ts))) with
            | (_, Some err) =>
                _ ← log Error "Invalid end time format: %v" [LParse err];
                mret (None, None, Some (ParseFailed err))
            | (endTime, None) =>
                let startTime :=
                  Date (Year currentTime) (Month currentTime) (Day currentTime)
                       (HourOf startTime) (Minute startTime) 0 0
                       (Loc currentTime) in
                let endTime :=
                  Date (Year currentTime) (Month currentTime) (Day currentTime)
                       (HourOf endTime) (Minute endTime) 0 0
                       (Loc currentTime) in
                let '(endTime, overnight) :=
                  if After startTime endTime
                  then (Add endTime (24 * Hour), true) else (endTime, false) in
                let inRange :=
                  negb (Before currentTime startTime)
                  && negb (After currentTime endTime) in
                _ ← log Debug "In range?" [LBool inRange];
                if negb inRange then
                  _ ← log Info "Current time is outside capture hours (overnight: %v); skipping image capture"
                          [LBool overnight];
                  mret (None, None, Some ErrNoCaptureToStore)
                else nextImage ts ctx
            end
        end
      else nextImage ts ctx
  end.

(** [Config.Validate] of this revision: the camera and both hours. *)
Definition Validate (cfg : Config) (path : string) : error + list string :=
  if String.eqb (Camera cfg) "" then inl (FieldRequired path "camera")
  else if String.eqb (StartHours cfg) "" || String.eqb (EndHours cfg) "" then
    inl (Errorf "start_hours and end_hours are required for component %q"
                [AStr path])
  else
    match Parse Layout_15_04 (StartHours cfg) with
    | (_, Some _) =>
        inl (Errorf "invalid start_hours format (HH:MM) for component %q"
                    [AStr path])
    | (_, None) =>
        match Parse Layout_15_04 (EndHours cfg) with
        | (_, Some _) =>
            inl (Errorf "invalid end_hours format (HH:MM) for component %q"
                        [AStr path])
        | (_, None) => inr [Camera cfg]
        end
    end.

(** [camera.Camera] as this revision calls it. *)
Record SourceCamera := mkSourceCamera {
  src_Stream : S -> (error + VideoStream) * S;
  src_Properties : S -> (Properties * option error) * S
}.

(** The wrapper with its inner camera, the field [cam]. *)
Record cameraFields := mkCameraFields { self : timedCamera; cam : SourceCamera }.

(** [newtimedCamera]: no validation, the dependency must resolve. *)
Definition newtimedCamera (deps : string -> error + SourceCamera)
           (rawConf : RawConfig Config) : BuildError + cameraFields :=
  match NativeConfig rawConf with
  | inl err => inl (Plain err)
  | inr conf =>
      match deps (Camera conf) with
      | inl err =>
          inl (Wrapf "failed to retrieve camera dependency %q: %w"
                     [AStr (Camera conf)] err)
      | inr cam => inr (mkCameraFields (mkTimedCamera (ResourceName rawConf) conf) cam)
      end
  end.

(** [Reconfigure]: name and configuration are assigned before the
    dependency is resolved. *)
Definition Reconfigure (c : cameraFields) (deps : string -> error + SourceCamera)
           (rawConf : RawConfig Config)
  : M (World S) (option error * cameraFields) :=
  match NativeConfig rawConf with
  | inl err =>
      _ ← log Warn "Error parsing new configuration: %v" [LErr err];
      mret (Some err, c)
  | inr newConfig =>
      let self' := mkTimedCamera (ResourceName rawConf) newConfig in
      match deps (Camera newConfig) with
      | inl err =>
          _ ← log Error "Failed to retrieve updated camera dependency %q: %v"
                  [LStr (Camera newConfig); LErr err];
          mret (Some err, mkCameraFields self' (cam c))
      | inr cam' => mret (None, mkCameraFields self' cam')
      end
  end.

(** [Stream]: the stream of the inner camera, wrapped; the wrapped stream
    refers to the wrapper, so [Next] gates by the wrapper's configuration
    at the time of the call. *)
Definition Stream (c : cameraFields) : M (World S) (error + timedStream) :=
  r ← call (src_Stream (cam c));
  match r with
  | inl err => mret (inl err)
  | inr cameraStream => mret (inr (mkTimedStream cameraStream (self c)))
  end.

End Stream.

Arguments VideoStream : clear implicits.
Arguments timedStream : clear implicits.
Arguments SourceCamera : clear implicits.
Arguments cameraFields : clear implicits.

End TimeSelectCameraStream.

(** ** Notions the properties are stated with *)
Module Notions.
Import GoTime Rdk TimeSelectCamera.

(** Nanoseconds since local midnight. *)
Definition clockNanos (t : Time) : Z :=
  unixNano t - (localDays t * secondsPerDay - zoneOffset (Loc t)) * Second.

(** Seconds after midnight of a parsed [HH:MM] value. *)
Definition clockOf (p : Time) : Z := HourOf p * 3600 + Minute p * 60.

(** The inclusive window from [S] to [E] seconds after midnight, the end
    moved to the next day when it is before the start. *)
Definition within (S E n : Z) : bool :=
  (S * Second <=? n) && (n <=? (if E <? S then E + secondsPerDay else E) * Second).

(** The open window from [S] to [E] seconds after midnight. *)
Definition strictlyWithin (S E n : Z) : bool :=
  (S * Second <? n) && (n <? E * Second).

Definition startClock (c : Config) : Z :=
  clockOf (fst (Parse Layout_15_04 (StartHours c))).
Definition endClock (c : Config) : Z :=
  clockOf (fst (Parse Layout_15_04 (EndHours c))).

Definition rangeStart (dr : DateRange) : Time := fst (Parse RFC3339 (dr_Start dr)).
Definition rangeEnd (dr : DateRange) : Time := fst (Parse RFC3339 (dr_End dr)).

(** [t] lies in the closed range from [rangeStart] to [rangeEnd]. *)
Definition covers (t : Time) (dr : DateRange) : Prop :=
  unixNano (rangeStart dr) <= unixNano t <= unixNano (rangeEnd dr).

(** One entry of a successful reading. *)
Definition reading (key : string) (r : error + gmap string Value)
  : option Value :=
  match r with inr m => m !! key | inl _ => None end.

Definition parses (layout : Layout) (value : string) : Prop :=
  snd (Parse layout value) = None.

(** How many of the three schedule variants have their fields populated. *)
Definition variantsPopulated (cfg : Config) : nat :=
  (Nat.b2n (hours cfg) + Nat.b2n (weekly cfg) + Nat.b2n (dates cfg))%nat.

Definition hoursOK (cfg : Config) : Prop :=
  parses Layout_15_04 (StartHours cfg) /\ parses Layout_15_04 (EndHours cfg).

(** An entry of the weekly schedule that passes: present, both fields
    non-empty and both parsing as [HH:MM:SS]. *)
Definition goodEntry (entry : option ScheduleHours) : Prop :=
  match entry with
  | None => False
  | Some sh =>
      sh_Start sh <> "" /\ sh_End sh <> ""
      /\ parses Layout_15_04_05 (sh_Start sh)
      /\ parses Layout_15_04_05 (sh_End sh)
  end.

Definition weeklyOK (cfg : Config) : Prop :=
  Forall (fun day => goodEntry (WeeklySchedule cfg !! day)) days.

(** A range that passes: both timestamps parse and the start is before the
    end. *)
Definition goodRange (dr : DateRange) : Prop :=
  parses RFC3339 (dr_Start dr) /\ parses RFC3339 (dr_End dr)
  /\ Before (fst (Parse RFC3339 (dr_Start dr)))
            (fst (Parse RFC3339 (dr_End dr))) = true.

Definition datesOK (cfg : Config) : Prop := Forall goodRange (Schedule cfg).

(** A stream answer as [Next] hands it on: nothing but the error when the
    inner stream fails. *)
Definition delivered {Img Release : Type}
           (r : option Img * option Release * option error)
  : option Img * option Release * option error :=
  match r with
  | (_, _, Some e) => (None, None, Some e)
  | (img, release, None) => (img, release, None)
  end.

(** An entry of the weekly schedule that fails validation. *)
Definition badEntry (entry : option ScheduleHours) : Prop :=
  match entry with
  | None => True
  | Some sh =>
      sh_Start sh = "" \/ sh_End sh = ""
      \/ ~ parses Layout_15_04_05 (sh_Start sh)
      \/ ~ parses Layout_15_04_05 (sh_End sh)
  end.

(** Seconds after midnight of a parsed [HH:MM:SS] value. *)
Definition clockHMS (p : Time) : Z :=
  HourOf p * 3600 + Minute p * 60 + SecondOf p.

(** A range that fails validation: a timestamp does not parse, or the start
    is not strictly before the end. *)
Definition badRange (dr : DateRange) : Prop :=
  ~ parses RFC3339 (dr_Start dr) \/ ~ parses RFC3339 (dr_End dr)
  \/ unixNano (rangeEnd dr) <= unixNano (rangeStart dr).

(** The daily hours of the sensor and of the stream revision parse. *)
Definition hoursParse (start end_ : string) : Prop :=
  parses Layout_15_04 start /\ parses Layout_15_04 end_.

End Notions.

(** ** Configurations and instants of the examples *)
Module Examples.
Import GoTime Rdk TimeSelectCamera.

(** Daily hours over midnight and within one day. *)
Definition overnight : Config := mkConfig "cam" "22:00" "06:00" ∅ [].
Definition daytime : Config := mkConfig "cam" "08:00" "18:00" ∅ [].

Definition overnightSensor : TimeSyncSensor.timeSensor :=
  TimeSyncSensor.mkTimeSensor "sync" (TimeSyncSensor.mkConfig "22:00" "06:00").
Definition daytimeSensor : TimeSyncSensor.timeSensor :=
  TimeSyncSensor.mkTimeSensor "sync" (TimeSyncSensor.mkConfig "08:00" "18:00").
Definition daytimeSensorRange : TimeSyncSensorRange.timeSensor :=
  TimeSyncSensorRange.mkTimeSensor "sync"
    (TimeSyncSensorRange.mkConfig "08:00" "18:00").

(** One explicit range, the first day of 2024 (UTC). *)
Definition newYear : DateRange :=
  mkDateRange "2024-01-01T00:00:00Z" "2024-01-02T00:00:00Z".
Definition explicitOnly : Config := mkConfig "cam" "" "" ∅ [newYear].

Definition workday : ScheduleHours := mkScheduleHours "08:00:00" "18:00:00".

(** A weekly schedule without Sunday. *)
Definition sixDays : gmap string ScheduleHours :=
  list_to_map [("mon", workday); ("tue", workday); ("wed", workday);
               ("thu", workday); ("fri", workday); ("sat", workday)].
Definition noSunday : Config := mkConfig "cam" "" "" sixDays [].

(** Daily hours together with an explicit range. *)
Definition twoVariants : Config := mkConfig "cam" "08:00" "18:00" ∅ [newYear].

(** Extra parameters with and without the marker of the data manager. *)
Definition marked : Extra := Some {[ "fromDataManagement" := VBool true ]}.
Definition markedFalse : Extra := Some {[ "fromDataManagement" := VBool false ]}.
Definition markedString : Extra :=
  Some {[ "fromDataManagement" := VString "true" ]}.
Definition unmarked : Extra := Some ∅.

(** An inner camera that counts its calls and supports point clouds. *)
Definition pcdCamera : Rdk.Camera nat :=
  mkCamera
    (fun mimeType _ n => (([255; 216; Z.of_nat n], mkMeta mimeType, None), Datatypes.S n))
    (fun n => ((mkProps true "color" ["image/jpeg"], None), n)).

Definition wrapper (c : Config) : timedCamera nat :=
  mkTimedCamera "timed" c pcdCamera.

Definition world0 {S : Type} (s : S) : World S := mkWorld s [] false.

(** An inner stream that counts its calls; its images are numbers. *)
Definition countingStream : TimeSelectCameraStream.VideoStream nat nat unit :=
  TimeSelectCameraStream.mkVideoStream
    (fun _ n => ((Some n, Some tt, None), Datatypes.S n)).

Definition gatedStream (start end_ : string)
  : TimeSelectCameraStream.timedStream nat nat unit :=
  TimeSelectCameraStream.mkTimedStream countingStream
    (TimeSelectCameraStream.mkTimedCamera "timed"
       (TimeSelectCameraStream.mkConfig "cam" start end_)).

(** A range that ends when it starts. *)
Definition pointRange : DateRange :=
  mkDateRange "2024-01-01T00:00:00Z" "2024-01-01T00:00:00Z".

(** Daily hours that start and end at noon. *)
Definition noonOnly : Config := mkConfig "cam" "12:00" "12:00" ∅ [].

(** All seven weekdays, and a configuration of the weekly variant alone. *)
Definition sevenDays : gmap string ScheduleHours := <["sun" := workday]> sixDays.
Definition weeklyOnly : Config := mkConfig "cam" "" "" sevenDays [].

(** Dependencies that know the camera ["cam"] only. *)
Definition onlyCam : Dependencies nat :=
  fun n => if String.eqb n "cam" then inr pcdCamera
           else inl (Failure "resource not found").

Definition rawOf {C : Type} (c : C) : RawConfig C := mkRawConfig "camera-1" (inr c).

(** A configuration naming a camera that the dependencies do not know. *)
Definition otherCamera : Config := mkConfig "other" "08:00" "18:00" ∅ [].

(** Sensor hours that do not parse. *)
Definition brokenHours : TimeSyncSensor.Config :=
  TimeSyncSensor.mkConfig "8 o'clock" "18:00".

(** A source camera of the stream revision and dependencies that know none. *)
Definition countingSource : TimeSelectCameraStream.SourceCamera nat nat unit :=
  TimeSelectCameraStream.mkSourceCamera
    (fun n => (inr countingStream, n))
    (fun n => ((mkProps true "color" ["image/jpeg"], None), n)).

Definition noSource
  : string -> error + TimeSelectCameraStream.SourceCamera nat nat unit :=
  fun _ => inl (Failure "resource not found").

End Examples.

(** * Properties *)

(** ** The calendar conversions are inverse to each other *)
Module CalendarFacts.
Import GoTime Notions.

Lemma checkFrom_sound n : forall d k,
  checkFrom n d = true -> d <= k < d + Z.of_nat n -> civilRoundTrip k = true.
Proof.
  induction n as [|n IH]; intros d k Hc Hk; [lia|].
  cbn [checkFrom] in Hc.
  destruct (civilRoundTrip d) eqn:Hd; [|discriminate].
  destruct (Z.eq_dec k d) as [->|Hne]; [assumption|].
  apply (IH (d + 1)); [assumption|lia].
Qed.

Lemma cycle_checked : checkFrom (Z.to_nat 146097) (- unixEpochDays) = true.
Proof. vm_compute. reflexivity. Qed.

(** Linear arithmetic with division and remainder by constants. *)
Ltac dlia := Z.div_mod_to_equations; lia.

Lemma isLeap_shift y q : isLeap (y + 400 * q) = isLeap y.
Proof.
  unfold isLeap.
  replace ((y + 400 * q) mod 4) with (y mod 4) by dlia.
  replace ((y + 400 * q) mod 100) with (y mod 100) by dlia.
  replace ((y + 400 * q) mod 400) with (y mod 400) by dlia.
  reflexivity.
Qed.

Lemma daysSinceYear1_shift y q :
  daysSinceYear1 (y + 400 * q) = daysSinceYear1 y + 146097 * q.
Proof. unfold daysSinceYear1. dlia. Qed.

Lemma civilToDays_shift y m d q :
  civilToDays (y + 400 * q) m d = civilToDays y m d + 146097 * q.
Proof.
  unfold civilToDays.
  replace (y + 400 * q + (m - 1) / 12) with (y + (m - 1) / 12 + 400 * q) by lia.
  rewrite isLeap_shift, daysSinceYear1_shift.
  destruct (isLeap _ && _); lia.
Qed.

Lemma yearDay_shift k q :
  0 <= k + unixEpochDays < 146097 ->
  yearDay (k + 146097 * q) = (fst (yearDay k) + 400 * q, snd (yearDay k)).
Proof.
  intros Hk. unfold yearDay.
  replace ((k + 146097 * q + unixEpochDays) / 146097) with q by dlia.
  replace ((k + unixEpochDays) / 146097) with 0 by dlia.
  replace (k + 146097 * q + unixEpochDays - 146097 * q)
    with (k + unixEpochDays - 146097 * 0) by lia.
  cbn [fst snd]. f_equal. lia.
Qed.

Lemma civilOfDays_shift k q :
  0 <= k + unixEpochDays < 146097 ->
  civilOfDays (k + 146097 * q) =
  let '(y, m, d) := civilOfDays k in (y + 400 * q, m, d).
Proof.
  intros Hk. unfold civilOfDays. rewrite (yearDay_shift k q Hk).
  destruct (yearDay k) as [y yd]. cbn [fst snd].
  unfold monthDay. rewrite isLeap_shift.
  repeat match goal with |- context [if ?b then _ else _] => destruct b end;
    reflexivity.
Qed.

(** Every day number is the day number of its own civil date. *)
Lemma civilToDays_civilOfDays days :
  let '(y, m, d) := civilOfDays days in civilToDays y m d = days.
Proof.
  set (q := (days + unixEpochDays) / 146097).
  set (k := days - 146097 * q).
  assert (Hk : 0 <= k + unixEpochDays < 146097) by (subst k q; dlia).
  assert (Hrt : civilRoundTrip k = true).
  { apply (checkFrom_sound _ _ _ cycle_checked). lia. }
  replace days with (k + 146097 * q) by (subst k; lia).
  rewrite (civilOfDays_shift k q Hk).
  unfold civilRoundTrip in Hrt.
  destruct (civilOfDays k) as [[y m] d].
  rewrite civilToDays_shift. apply Z.eqb_eq in Hrt. lia.
Qed.

(** Anchoring a clock time to the calendar date of [t], in [t]'s location. *)
Lemma Date_same_day t hour min sec nsec :
  unixNano (Date (Year t) (Month t) (Day t) hour min sec nsec (Loc t)) =
  (localDays t * secondsPerDay + hour * 3600 + min * 60 + sec
   - zoneOffset (Loc t)) * Second + nsec.
Proof.
  unfold Date, Year, Month, Day. cbn [unixNano].
  pose proof (civilToDays_civilOfDays (localDays t)) as H.
  destruct (civilOfDays (localDays t)) as [[y m] d]. cbn [fst snd].
  rewrite H. reflexivity.
Qed.

Lemma clockNanos_range t : 0 <= clockNanos t < secondsPerDay * Second.
Proof.
  unfold clockNanos, localDays, localSec, secondsPerDay, Second. dlia.
Qed.

Lemma localDays_Date y mo d h mi s ns loc :
  0 <= h * 3600 + mi * 60 + s < secondsPerDay -> 0 <= ns < Second ->
  localDays (Date y mo d h mi s ns loc) = civilToDays y mo d.
Proof.
  unfold localDays, localSec, Date, secondsPerDay, Second. cbn [unixNano Loc].
  generalize (civilToDays y mo d). intros D Hc Hn. dlia.
Qed.

Lemma clockNanos_Date y mo d h mi s ns loc :
  0 <= h * 3600 + mi * 60 + s < secondsPerDay -> 0 <= ns < Second ->
  clockNanos (Date y mo d h mi s ns loc) = (h * 3600 + mi * 60 + s) * Second + ns.
Proof.
  intros Hc Hn. unfold clockNanos. rewrite localDays_Date by assumption.
  unfold Date. cbn [unixNano Loc]. lia.
Qed.

(** The anchoring shared by the camera, the stream and the sensor. *)
Lemma anchored_window t hs ms ss he me se :
  let start := Date (Year t) (Month t) (Day t) hs ms ss 0 (Loc t) in
  let end_ := Date (Year t) (Month t) (Day t) he me se 0 (Loc t) in
  let end' := if After start end_ then Add end_ (24 * Hour) else end_ in
  negb (Before t start) && negb (After t end') =
  within (hs * 3600 + ms * 60 + ss) (he * 3600 + me * 60 + se) (clockNanos t).
Proof.
  cbv zeta. unfold within, After, Before, clockNanos.
  match goal with
  | |- context [if ?c then Add ?e ?d else ?e] =>
      replace (unixNano (if c then Add e d else e))
        with (unixNano e + (if c then d else 0))
        by (destruct c; cbn [Add unixNano]; lia)
  end.
  rewrite !Date_same_day. unfold Hour, Second, secondsPerDay.
  match goal with
  | |- context [if ?a <? ?b then _ else 0] => destruct (Z.ltb_spec a b)
  end;
  repeat match goal with
         | |- context [?a <? ?b] => destruct (Z.ltb_spec a b)
         | |- context [?a <=? ?b] => destruct (Z.leb_spec a b)
         end; cbn [negb andb]; try reflexivity; lia.
Qed.

(** The strict comparison of the sensor reporting [within_time_range]. *)
Lemma anchored_strict t hs ms he me :
  let start := Date (Year t) (Month t) (Day t) hs ms 0 0 (Loc t) in
  let end_ := Date (Year t) (Month t) (Day t) he me 0 0 (Loc t) in
  After t start && Before t end_ =
  strictlyWithin (hs * 3600 + ms * 60) (he * 3600 + me * 60) (clockNanos t).
Proof.
  cbv zeta. unfold strictlyWithin, After, Before, clockNanos.
  rewrite !Date_same_day.
  unfold Second, secondsPerDay.
  repeat match goal with
         | |- context [?a <? ?b] => destruct (Z.ltb_spec a b)
         end; cbn; try reflexivity; lia.
Qed.

End CalendarFacts.

(** ** The schedule evaluator of the camera *)
Module EvaluatorFacts.
Import GoTime Rdk Notions CalendarFacts TimeSelectCamera.

(** Daily mode decides alone, whatever else is configured. *)
Lemma inWindow_daily c t :
  hours c = true ->
  inWindow c t = within (startClock c) (endClock c) (clockNanos t).
Proof.
  intros Hh. unfold inWindow. fold (hours c). rewrite Hh.
  rewrite anchored_window, !Z.add_0_r. reflexivity.
Qed.

(** Without daily hours and without an entry for the weekday of [t], the
    explicit ranges decide. *)
Lemma inWindow_fallthrough c t :
  hours c = false ->
  weekly c = false \/ WeeklySchedule c !! dayKey t = None ->
  inWindow c t = inRanges t (Schedule c).
Proof.
  intros Hh Hw. unfold inWindow. fold (hours c) (weekly c). rewrite Hh.
  destruct Hw as [-> | Hw]; [reflexivity|].
  destruct (weekly c); rewrite ?Hw; reflexivity.
Qed.

Lemma inRanges_true t sched :
  inRanges t sched = true <-> exists dr, dr ∈ sched /\ covers t dr.
Proof.
  induction sched as [|dr rest IH]; cbn [inRanges].
  - split; [discriminate|]. intros (dr & Hin & _). inversion Hin.
  - fold (rangeStart dr) (rangeEnd dr).
    assert (Hc : negb (Before t (rangeStart dr)) && negb (After t (rangeEnd dr))
                 = true <-> covers t dr).
    { unfold Before, After, covers.
      rewrite andb_true_iff, !negb_true_iff, !Z.ltb_ge. reflexivity. }
    destruct (negb (Before t (rangeStart dr)) && negb (After t (rangeEnd dr))).
    + split; [intros _|reflexivity].
      exists dr. split; [apply list_elem_of_here | apply Hc; reflexivity].
    + rewrite IH. split; intros (dr' & Hin & Hd).
      * exists dr'. split; [apply list_elem_of_further|]; assumption.
      * apply elem_of_cons in Hin as [-> | Hin].
        -- apply Hc in Hd. discriminate.
        -- exists dr'. split; assumption.
Qed.

(** Within one day the daily window is closed at both ends. *)
Lemma inWindow_daily_closed c t :
  hours c = true -> startClock c <= endClock c ->
  inWindow c t = true <->
  startClock c * Second <= clockNanos t <= endClock c * Second.
Proof.
  intros Hh Hle. rewrite inWindow_daily by assumption. unfold within.
  rewrite (proj2 (Z.ltb_ge _ _)) by lia.
  rewrite andb_true_iff, !Z.leb_le. reflexivity.
Qed.

(** Over midnight the window of an instant only opens at the start time of
    the instant's own date: what lies before it on that date is outside. *)
Lemma inWindow_daily_overnight c t :
  hours c = true -> 0 <= endClock c < startClock c ->
  inWindow c t = true <-> startClock c * Second <= clockNanos t.
Proof.
  intros Hh Hlt. rewrite inWindow_daily by assumption. unfold within.
  rewrite (proj2 (Z.ltb_lt _ _)) by lia.
  rewrite andb_true_iff, !Z.leb_le.
  pose proof (clockNanos_range t). unfold secondsPerDay, Second in *. lia.
Qed.

(** The key of the weekly schedule is always one of the seven names that
    validation requires. *)
Lemma dayKey_in_days t : dayKey t ∈ days.
Proof.
  unfold dayKey. assert (H : 0 <= Weekday t < 7) by (unfold Weekday; dlia).
  assert (Hc : Weekday t = 0 \/ Weekday t = 1 \/ Weekday t = 2 \/ Weekday t = 3
               \/ Weekday t = 4 \/ Weekday t = 5 \/ Weekday t = 6) by lia.
  unfold days.
  destruct Hc as [-> | [-> | [-> | [-> | [-> | [-> | ->]]]]]]; cbn;
    repeat first [apply list_elem_of_here | apply list_elem_of_further].
Qed.

End EvaluatorFacts.

(** ** The readings of the two sensor revisions *)
Module SensorFacts.
Import GoTime Rdk Notions CalendarFacts.

Lemma Readings_should_sync s t extra w sh eh :
  Parse Layout_15_04 (TimeSyncSensor.StartHours (TimeSyncSensor.cfg s)) = (sh, None) ->
  Parse Layout_15_04 (TimeSyncSensor.EndHours (TimeSyncSensor.cfg s)) = (eh, None) ->
  exists m, TimeSyncSensor.Readings s t extra w = (inr m, w) /\
    m !! "should_sync"
    = Some (VBool (within (clockOf sh) (clockOf eh) (clockNanos t))).
Proof.
  intros Hs He. unfold TimeSyncSensor.Readings. rewrite Hs, He.
  pose proof (anchored_window t (HourOf sh) (Minute sh) 0 (HourOf eh) (Minute eh) 0)
    as Hw.
  cbv zeta in Hw. rewrite !Z.add_0_r in Hw. fold (clockOf sh) (clockOf eh) in Hw.
  match type of Hw with
  | context [if ?c then _ else _] => destruct c
  end; eexists; (split; [reflexivity|]);
    rewrite list_to_map_cons, lookup_insert_eq; cbn [fst snd];
    rewrite Hw; reflexivity.
Qed.

Lemma Readings_within_time_range s t extra w sh eh :
  Parse Layout_15_04 (TimeSyncSensorRange.StartHours (TimeSyncSensorRange.cfg s)) = (sh, None) ->
  Parse Layout_15_04 (TimeSyncSensorRange.EndHours (TimeSyncSensorRange.cfg s)) = (eh, None) ->
  TimeSyncSensorRange.Readings s t extra w
  = (inr {[ "within_time_range" :=
              VBool (strictlyWithin (clockOf sh) (clockOf eh) (clockNanos t)) ]}, w).
Proof.
  intros Hs He. unfold TimeSyncSensorRange.Readings. rewrite Hs, He.
  pose proof (anchored_strict t (HourOf sh) (Minute sh) (HourOf eh) (Minute eh))
    as Hw.
  cbv zeta in Hw. fold (clockOf sh) (clockOf eh) in Hw. rewrite Hw.
  reflexivity.
Qed.

(** The sensor never looks at [extra] and never answers with the sentinel. *)
Lemma Readings_ignores_extra s t extra extra' w :
  TimeSyncSensor.Readings s t extra w = TimeSyncSensor.Readings s t extra' w.
Proof. reflexivity. Qed.

Lemma Readings_no_sentinel s t extra w :
  fst (TimeSyncSensor.Readings s t extra w) <> inl ErrNoCaptureToStore.
Proof.
  unfold TimeSyncSensor.Readings.
  destruct (Parse Layout_15_04 (TimeSyncSensor.StartHours _)) as [sh [e|]];
    [cbn; discriminate|].
  destruct (Parse Layout_15_04 (TimeSyncSensor.EndHours _)) as [eh [e|]];
    [cbn; discriminate|].
  match goal with
  | |- context [if ?c then (_, true) else (_, false)] => destruct c
  end; cbn; discriminate.
Qed.

End SensorFacts.

(** ** Validation of the camera configuration *)
Module ValidationFacts.
Import GoTime Rdk Notions TimeSelectCamera.

Lemma validateHours_None path cfg :
  validateHours path cfg = None <-> hoursOK cfg.
Proof.
  unfold validateHours, hoursOK, parses.
  destruct (Parse Layout_15_04 (StartHours cfg)) as [ts [e|]];
    [cbn; split; [discriminate | intros [H _]; discriminate]|].
  destruct (Parse Layout_15_04 (EndHours cfg)) as [te [e|]]; cbn;
    split; try discriminate; try tauto.
  intros [_ H]; discriminate.
Qed.

Lemma validateWeekly_None path ws ds :
  validateWeekly path ws ds = None
  <-> Forall (fun day => goodEntry (ws !! day)) ds.
Proof.
  induction ds as [|day rest IH]; cbn [validateWeekly].
  - split; [constructor | reflexivity].
  - rewrite Forall_cons. unfold goodEntry at 1, parses.
    destruct (ws !! day) as [sh|]; [|split; [discriminate | tauto]].
    destruct (String.eqb_spec (sh_Start sh) "") as [Hs|Hs];
      [cbn; split; [discriminate | tauto]|].
    destruct (String.eqb_spec (sh_End sh) "") as [He|He];
      [cbn; split; [discriminate | tauto]|].
    cbn [orb].
    destruct (Parse Layout_15_04_05 (sh_Start sh)) as [ts [e|]];
      [cbn; split; [discriminate | intros [(_ & _ & H & _) _]; discriminate]|].
    destruct (Parse Layout_15_04_05 (sh_End sh)) as [te [e|]];
      [cbn; split; [discriminate | intros [(_ & _ & _ & H) _]; discriminate]|].
    cbn [snd]. rewrite IH. tauto.
Qed.

Lemma validateDates_None path sched : forall i,
  validateDates path i sched = None <-> Forall goodRange sched.
Proof.
  induction sched as [|dr rest IH]; intros i; cbn [validateDates].
  - split; [constructor | reflexivity].
  - rewrite Forall_cons. unfold goodRange at 1, parses.
    destruct (Parse RFC3339 (dr_Start dr)) as [ts [e|]];
      [cbn; split; [discriminate | intros [(H & _) _]; discriminate]|].
    destruct (Parse RFC3339 (dr_End dr)) as [te [e|]];
      [cbn; split; [discriminate | intros [(_ & H & _) _]; discriminate]|].
    cbn [fst snd]. destruct (Before ts te); cbn [negb].
    + rewrite IH. tauto.
    + split; [discriminate | intros [(_ & _ & H) _]; discriminate].
Qed.

(** What [Validate] accepts. *)
Lemma Validate_inr cfg path deps :
  Validate cfg path = inr deps <->
  deps = [Camera cfg] /\ Camera cfg <> ""
  /\ hours cfg || weekly cfg || dates cfg = true
  /\ (hours cfg = true -> hoursOK cfg)
  /\ (weekly cfg = true -> weeklyOK cfg)
  /\ (dates cfg = true -> datesOK cfg).
Proof.
  unfold Validate, weeklyOK, datesOK.
  rewrite <- (validateHours_None path cfg).
  rewrite <- (validateWeekly_None path (WeeklySchedule cfg) days).
  rewrite <- (validateDates_None path (Schedule cfg) 0).
  destruct (String.eqb_spec (Camera cfg) "") as [Hc|Hc];
    [split; [discriminate | tauto]|].
  destruct (hours cfg || weekly cfg || dates cfg) eqn:Hany; cbn [negb];
    [|split; [discriminate | intros (_ & _ & H & _); discriminate]].
  unfold when.
  destruct (hours cfg);
    [destruct (validateHours path cfg) as [e|];
     [split; [discriminate | intros (_ & _ & _ & H & _); discriminate (H eq_refl)]|]|];
    (destruct (weekly cfg);
     [destruct (validateWeekly path (WeeklySchedule cfg) days) as [e|];
      [split; [discriminate | intros (_ & _ & _ & _ & H & _); discriminate (H eq_refl)]|]|]);
    (destruct (dates cfg);
     [destruct (validateDates path 0 (Schedule cfg)) as [e|];
      [split; [discriminate | intros (_ & _ & _ & _ & _ & H); discriminate (H eq_refl)]|]|]).
  all: split; [intros [= <-]; repeat split; tauto || discriminate
              | intros (-> & _); reflexivity].
Qed.

End ValidationFacts.

(** ** The gate of the camera wrapper and of the gated stream *)
Module WrapperFacts.
Import GoTime Rdk Notions TimeSelectCamera.

Lemma fromDataManagement_true extra :
  fromDataManagement extra = true <->
  exists m, extra = Some m /\ m !! "fromDataManagement" = Some (VBool true).
Proof.
  unfold fromDataManagement, notNil, index.
  destruct extra as [m|]; [|split; [discriminate | intros (m & Hm & _); discriminate]].
  cbn [andb]. split.
  - intros H. exists m. split; [reflexivity|].
    destruct (m !! "fromDataManagement") as [[|[|]| |]|]; cbn in H;
      try discriminate; reflexivity.
  - intros (m' & [= <-] & ->). reflexivity.
Qed.

Lemma Image_unmarked {S} (c : timedCamera S) now mimeType extra w :
  fromDataManagement extra = false ->
  Image c now mimeType extra w = call (cam_Image (inner c) mimeType extra) w.
Proof. intros H. unfold Image. rewrite H. reflexivity. Qed.

Lemma Image_marked {S} (c : timedCamera S) now mimeType extra w :
  fromDataManagement extra = true ->
  Image c now mimeType extra w =
  if inWindow (cfg c) now
  then call (cam_Image (inner c) mimeType extra) w
  else (([], mkMeta "", Some ErrNoCapture),
        mkWorld (innerState w)
                (logged w ++ [mkLog Info "%s: time %v outside window, skipping"
                                    [LStr (name c); LTime now]])
                (cancelled w)).
Proof.
  intros H. unfold Image. rewrite H.
  destruct (inWindow (cfg c) now); reflexivity.
Qed.

Section Stream.
Context {S Img Release : Type}.
Import TimeSelectCameraStream.

(** Without an [Extra] in the context the inner answer is returned as it
    is; with an unmarked one it is handed on by the tail of [Next]. *)
Lemma Next_unmarked (ts : timedStream S Img Release) ctx now w :
  match ctxExtra ctx with
  | Some extra => fromDataManagement extra = false
  | None => True
  end ->
  fst (Next ts ctx now w)
  = (let r := fst (vs_Next (cameraStream ts) ctx (innerState w)) in
     match ctxExtra ctx with Some _ => delivered r | None => r end)
  /\ innerState (snd (Next ts ctx now w))
     = snd (vs_Next (cameraStream ts) ctx (innerState w)).
Proof.
  unfold Next. destruct (ctxExtra ctx) as [extra|]; intros H.
  - fold (fromDataManagement extra). rewrite H.
    unfold nextImage, mbind, M_bind, log, call. cbn [innerState].
    destruct (vs_Next (cameraStream ts) ctx (innerState w))
      as [[[img release] [e|]] s']; split; reflexivity.
  - unfold mbind, M_bind, log, call. cbn [innerState].
    destruct (vs_Next (cameraStream ts) ctx (innerState w)) as [r s'];
      split; reflexivity.
Qed.

(** A marked request is gated by the daily window of the stream. *)
Lemma Next_marked (ts : timedStream S Img Release) ctx now w extra sh eh :
  ctxExtra ctx = Some extra ->
  fromDataManagement extra = true ->
  Parse Layout_15_04 (StartHours (cfg (c ts))) = (sh, None) ->
  Parse Layout_15_04 (EndHours (cfg (c ts))) = (eh, None) ->
  if within (clockOf sh) (clockOf eh) (clockNanos now)
  then fst (Next ts ctx now w)
       = delivered (fst (vs_Next (cameraStream ts) ctx (innerState w)))
       /\ innerState (snd (Next ts ctx now w))
          = snd (vs_Next (cameraStream ts) ctx (innerState w))
  else fst (Next ts ctx now w) = (None, None, Some ErrNoCaptureToStore)
       /\ innerState (snd (Next ts ctx now w)) = innerState w.
Proof.
  intros Hctx Hm Hs He. unfold Next. rewrite Hctx.
  fold (fromDataManagement extra). rewrite Hm, Hs, He.
  pose proof (CalendarFacts.anchored_window now (HourOf sh) (Minute sh) 0
                (HourOf eh) (Minute eh) 0) as Hw.
  cbv zeta in Hw. rewrite !Z.add_0_r in Hw. fold (clockOf sh) (clockOf eh) in Hw.
  rewrite <- Hw. clear Hw.
  match goal with
  | |- context [if ?a then (Add _ _, true) else (_, false)] => destruct a
  end;
    match goal with
    | |- context [if ?b then _ /\ _ else _ /\ _] => destruct b eqn:Hin
    end;
    unfold nextImage, mbind, M_bind, mret, M_ret, log, call; cbn [innerState];
    rewrite ?Hin; cbn [negb innerState];
    try (destruct (vs_Next (cameraStream ts) ctx (innerState w))
           as [[[img release] [e|]] s']);
    split; reflexivity.
Qed.

End Stream.

End WrapperFacts.

(** * The windows, the validation and the gate *)

Import GoTime Rdk Notions Examples TimeSelectCamera.
Import CalendarFacts EvaluatorFacts SensorFacts ValidationFacts WrapperFacts.

(** The daily window of the camera at a clock time of any date. *)
Ltac camera_at_clock :=
  rewrite inWindow_daily by reflexivity;
  rewrite clockNanos_Date by (unfold secondsPerDay, Second; lia);
  vm_compute; reflexivity.

(** The same for the [should_sync] entry of the sensor. *)
Ltac sensor_at_clock :=
  match goal with
  | |- reading _ (fst (TimeSyncSensor.Readings ?s ?t ?e ?w)) = _ =>
      destruct (Readings_should_sync s t e w _ _ eq_refl eq_refl)
        as (m & -> & Hm);
      cbn [fst reading]; rewrite Hm;
      rewrite clockNanos_Date by (unfold secondsPerDay, Second; lia);
      vm_compute; reflexivity
  end.

(** And for the [within_time_range] entry of the other sensor revision. *)
Ltac range_sensor_at_clock :=
  match goal with
  | |- reading _ (fst (TimeSyncSensorRange.Readings ?s ?t ?e ?w)) = _ =>
      rewrite (Readings_within_time_range s t e w _ _ eq_refl eq_refl);
      cbn [fst reading]; rewrite lookup_singleton_eq;
      rewrite clockNanos_Date by (unfold secondsPerDay, Second; lia);
      vm_compute; reflexivity
  end.

(** C1. Daily hours from 22:00 to 06:00, on any date and in any location of
    fixed offset: 23:00 is in the window and 12:00 is not, and 02:00 is not
    in it either, for the camera evaluator and for the sensor alike. The end
    is moved to 06:00 of the day after the instant's own date, so the window
    tested at 02:00 only opens at 22:00 of that day. *)
Theorem overnight_window_at_23_02_12 y mo d loc extra w :
  let at_ h := Date y mo d h 0 0 0 loc in
  let sync t :=
    reading "should_sync" (fst (TimeSyncSensor.Readings overnightSensor t extra w)) in
  inWindow overnight (at_ 23) = true
  /\ inWindow overnight (at_ 2) = false
  /\ inWindow overnight (at_ 12) = false
  /\ sync (at_ 23) = Some (VBool true)
  /\ sync (at_ 2) = Some (VBool false)
  /\ sync (at_ 12) = Some (VBool false).
Proof.
  cbv zeta. repeat split; first [camera_at_clock | sensor_at_clock].
Qed.

(** C3. Daily hours from 08:00 to 18:00, on any date and in any location of
    fixed offset. The camera evaluator and the [should_sync] sensor include
    both ends: 08:00, 12:00 and 18:00 are inside, 07:59 and 18:01 outside.
    The sensor revision reporting [within_time_range] compares strictly: it
    has 12:00 inside, but exactly 08:00 and exactly 18:00 outside. *)
Theorem daytime_window_bounds y mo d loc extra w :
  let at_ h mi := Date y mo d h mi 0 0 loc in
  let sync t :=
    reading "should_sync" (fst (TimeSyncSensor.Readings daytimeSensor t extra w)) in
  let inRange t :=
    reading "within_time_range"
            (fst (TimeSyncSensorRange.Readings daytimeSensorRange t extra w)) in
  (inWindow daytime (at_ 8 0) = true
   /\ inWindow daytime (at_ 18 0) = true
   /\ inWindow daytime (at_ 12 0) = true
   /\ inWindow daytime (at_ 7 59) = false
   /\ inWindow daytime (at_ 18 1) = false)
  /\ (sync (at_ 8 0) = Some (VBool true)
      /\ sync (at_ 18 0) = Some (VBool true)
      /\ sync (at_ 12 0) = Some (VBool true)
      /\ sync (at_ 7 59) = Some (VBool false)
      /\ sync (at_ 18 1) = Some (VBool false))
  /\ (inRange (at_ 8 0) = Some (VBool false)
      /\ inRange (at_ 18 0) = Some (VBool false)
      /\ inRange (at_ 12 0) = Some (VBool true)
      /\ inRange (at_ 7 59) = Some (VBool false)
      /\ inRange (at_ 18 1) = Some (VBool false)).
Proof.
  cbv zeta.
  repeat split;
    first [camera_at_clock | sensor_at_clock | range_sensor_at_clock].
Qed.

(** Against C2 on the side of the sensor: asked by the data manager at
    23:00 with daily hours from 08:00 to 18:00, it does not answer with the
    sentinel but with a reading whose [should_sync] is false. *)
Lemma sensor_marked_outside_window_reads :
  let r := fst (TimeSyncSensor.Readings daytimeSensor
                  (Date 2024 1 1 23 0 0 0 UTC) marked (world0 tt)) in
  fromDataManagement marked = true
  /\ r <> inl ErrNoCaptureToStore
  /\ reading "should_sync" r = Some (VBool false).
Proof.
  cbv zeta. split; [reflexivity|]. split.
  - apply Readings_no_sentinel.
  - vm_compute. reflexivity.
Qed.

(** C2. A marked [Image] call of the camera outside the window returns the
    sentinel with no data and leaves the inner camera alone; inside the
    window it is the call of the inner camera, result and state. The sensor
    has no gate: [Readings] ignores the extra parameters, never returns the
    sentinel, and reports the window test as [should_sync] when its hours
    parse. *)
Theorem marked_calls_are_gated {S} (c : timedCamera S) now mimeType extra w
        (s : TimeSyncSensor.timeSensor) (ws : World unit) :
  fromDataManagement extra = true ->
  (inWindow (cfg c) now = false ->
   fst (Image c now mimeType extra w) = ([], mkMeta "", Some ErrNoCapture)
   /\ innerState (snd (Image c now mimeType extra w)) = innerState w)
  /\ (inWindow (cfg c) now = true ->
      Image c now mimeType extra w
      = call (cam_Image (inner c) mimeType extra) w)
  /\ TimeSyncSensor.Readings s now extra ws = TimeSyncSensor.Readings s now None ws
  /\ fst (TimeSyncSensor.Readings s now extra ws) <> inl ErrNoCaptureToStore
  /\ (forall sh eh,
        Parse Layout_15_04 (TimeSyncSensor.StartHours (TimeSyncSensor.cfg s)) = (sh, None) ->
        Parse Layout_15_04 (TimeSyncSensor.EndHours (TimeSyncSensor.cfg s)) = (eh, None) ->
        reading "should_sync" (fst (TimeSyncSensor.Readings s now extra ws))
        = Some (VBool (within (clockOf sh) (clockOf eh) (clockNanos now)))).
Proof.
  intros Hm. rewrite (Image_marked c now mimeType extra w Hm).
  split; [|split; [|split; [|split]]].
  - intros ->. split; reflexivity.
  - intros ->. reflexivity.
  - reflexivity.
  - apply Readings_no_sentinel.
  - intros sh eh Hs He.
    destruct (Readings_should_sync s now extra ws sh eh Hs He) as (m & -> & Hr).
    exact Hr.
Qed.

Lemma marked_calls_are_gated_witness :
  fromDataManagement marked = true
  /\ fst (Image (wrapper daytime) (Date 2024 1 1 23 0 0 0 UTC) "image/jpeg"
                marked (world0 7%nat))
     = ([], mkMeta "", Some ErrNoCapture)
  /\ fst (Image (wrapper daytime) (Date 2024 1 1 12 0 0 0 UTC) "image/jpeg"
                marked (world0 7%nat))
     = ([255; 216; 7], mkMeta "image/jpeg", None).
Proof.
  split; [reflexivity|]. split.
  - apply (marked_calls_are_gated (wrapper daytime) (Date 2024 1 1 23 0 0 0 UTC)
             "image/jpeg" marked (world0 7%nat) daytimeSensor (world0 tt)
             eq_refl).
    vm_compute. reflexivity.
  - rewrite (proj1 (proj2 (marked_calls_are_gated (wrapper daytime)
               (Date 2024 1 1 12 0 0 0 UTC) "image/jpeg" marked (world0 7%nat)
               daytimeSensor (world0 tt) eq_refl))).
    + reflexivity.
    + vm_compute. reflexivity.
Defined.

(** C5. A call without the marker is the call of the inner capability,
    whatever the configuration and the instant: [Image] is the inner
    [Image], result and state, and [Next] of the gated stream hands on the
    answer of the inner stream (as it is when the context carries no extra
    parameters, with nothing but the error when it carries unmarked ones and
    the inner stream fails). *)
Theorem unmarked_calls_delegate {S S' Img Release} (c : timedCamera S)
        now mimeType extra w
        (ts : TimeSelectCameraStream.timedStream S' Img Release) (w' : World S') :
  fromDataManagement extra = false ->
  let withExtra := TimeSelectCameraStream.mkContext (Some extra) in
  let without := TimeSelectCameraStream.mkContext None in
  let innerNext ctx :=
    TimeSelectCameraStream.vs_Next (TimeSelectCameraStream.cameraStream ts)
                                   ctx (innerState w') in
  Image c now mimeType extra w = call (cam_Image (inner c) mimeType extra) w
  /\ fst (TimeSelectCameraStream.Next ts withExtra now w')
     = delivered (fst (innerNext withExtra))
  /\ innerState (snd (TimeSelectCameraStream.Next ts withExtra now w'))
     = snd (innerNext withExtra)
  /\ fst (TimeSelectCameraStream.Next ts without now w') = fst (innerNext without)
  /\ innerState (snd (TimeSelectCameraStream.Next ts without now w'))
     = snd (innerNext without).
Proof.
  intros Hm. cbv zeta.
  split; [apply Image_unmarked; exact Hm|].
  destruct (Next_unmarked ts (TimeSelectCameraStream.mkContext (Some extra))
              now w' Hm) as [H1 H2].
  destruct (Next_unmarked ts (TimeSelectCameraStream.mkContext None)
              now w' I) as [H3 H4].
  repeat split; assumption.
Qed.

Lemma unmarked_calls_delegate_witness :
  fromDataManagement unmarked = false
  /\ Image (wrapper overnight) (Date 2024 1 1 12 0 0 0 UTC) "image/jpeg"
           unmarked (world0 7%nat)
     = (([255; 216; 7], mkMeta "image/jpeg", None), mkWorld 8%nat [] false).
Proof.
  split; [reflexivity|].
  rewrite (proj1 (unmarked_calls_delegate (wrapper overnight)
             (Date 2024 1 1 12 0 0 0 UTC) "image/jpeg" unmarked (world0 7%nat)
             (gatedStream "22:00" "06:00") (world0 0%nat) eq_refl)).
  reflexivity.
Defined.

(** Against C7 for [Properties]: over an inner camera that supports point
    clouds the wrapper reports that it does not. *)
Lemma Properties_not_unmodified :
  fst (cam_Properties pcdCamera 0%nat)
  = (mkProps true "color" ["image/jpeg"], None)
  /\ fst (Properties (wrapper daytime) (world0 0%nat))
     = (mkProps false "color" ["image/jpeg"], None)
  /\ fst (Properties (wrapper daytime) (world0 0%nat))
     <> fst (cam_Properties pcdCamera 0%nat).
Proof. repeat split; [discriminate]. Qed.

(** C7. [Images], [NextPointCloud] and [DoCommand] return the unimplemented
    error and touch nothing. [Properties] calls the inner camera and returns
    its error unchanged; when the inner call fails its properties are
    returned as they are, and when it succeeds they are returned with
    [SupportsPCD] set to false and the other fields unchanged. *)
Theorem other_camera_operations {S} (c : timedCamera S) cmd w :
  Images c w = (Some ErrUnimplemented, w)
  /\ NextPointCloud c w = (Some ErrUnimplemented, w)
  /\ DoCommand c cmd w = (Some ErrUnimplemented, w)
  /\ (let '((p, err), s') := cam_Properties (inner c) (innerState w) in
      let '((p', err'), w') := Properties c w in
      err' = err
      /\ w' = mkWorld s' (logged w) (cancelled w)
      /\ (err <> None -> p' = p)
      /\ (err = None ->
          SupportsPCD p' = false
          /\ ImageType p' = ImageType p /\ MimeTypes p' = MimeTypes p)).
Proof.
  repeat (split; [reflexivity|]).
  unfold Properties, mbind, M_bind, mret, M_ret, call.
  destruct (cam_Properties (inner c) (innerState w)) as [[p [e|]] s'];
    repeat split; try reflexivity; try discriminate.
  intros H. contradiction H. reflexivity.
Qed.

Lemma other_camera_operations_witness :
  DoCommand (wrapper daytime) None (world0 0%nat)
  = (Some ErrUnimplemented, world0 0%nat)
  /\ SupportsPCD (fst (fst (Properties (wrapper daytime) (world0 0%nat)))) = false.
Proof.
  pose proof (other_camera_operations (wrapper daytime) None (world0 0%nat))
    as (_ & _ & Hd & Hp).
  split; [exact Hd|].
  cbn in Hp. destruct Hp as (_ & _ & _ & Hp).
  destruct (Hp eq_refl) as (Hpcd & _). exact Hpcd.
Defined.

(** C10. The gate is taken exactly when the extra parameters are a non-nil
    map whose entry for [fromDataManagement] is the boolean true. In every
    other case ([nil], no entry, or an entry of any other value) [Image] is
    the call of the inner camera and [Next] hands on the answer of the inner
    stream, whatever the configuration and the instant. *)
Theorem gate_requires_boolean_true {S S' Img Release} (c : timedCamera S)
        now mimeType extra w
        (ts : TimeSelectCameraStream.timedStream S' Img Release) (w' : World S') :
  let key := "fromDataManagement" in
  let isTrue := exists m, extra = Some m /\ m !! key = Some (VBool true) in
  let ctx := TimeSelectCameraStream.mkContext (Some extra) in
  let innerNext :=
    TimeSelectCameraStream.vs_Next (TimeSelectCameraStream.cameraStream ts)
                                   ctx (innerState w') in
  (fromDataManagement extra = true <-> isTrue)
  /\ (isTrue ->
      Image c now mimeType extra w
      = if inWindow (cfg c) now
        then call (cam_Image (inner c) mimeType extra) w
        else (([], mkMeta "", Some ErrNoCapture),
              mkWorld (innerState w)
                      (logged w ++ [mkLog Info "%s: time %v outside window, skipping"
                                          [LStr (name c); LTime now]])
                      (cancelled w)))
  /\ (~ isTrue ->
      Image c now mimeType extra w = call (cam_Image (inner c) mimeType extra) w
      /\ fst (TimeSelectCameraStream.Next ts ctx now w') = delivered (fst innerNext)
      /\ innerState (snd (TimeSelectCameraStream.Next ts ctx now w'))
         = snd innerNext).
Proof.
  cbv zeta. split; [apply fromDataManagement_true|].
  split; [intros Ht; apply Image_marked, fromDataManagement_true; exact Ht|].
  intros Hn.
  assert (Hm : fromDataManagement extra = false).
  { destruct (fromDataManagement extra) eqn:E; [|reflexivity].
    contradiction Hn. apply fromDataManagement_true. exact E. }
  split; [apply Image_unmarked; exact Hm|].
  apply (Next_unmarked ts (TimeSelectCameraStream.mkContext (Some extra))
           now w' Hm).
Qed.

(** The boolean false, the string ["true"], a map without the entry and the
    nil map all pass the gate by, here at noon of an overnight window. *)
Lemma gate_requires_boolean_true_witness :
  Forall (fun extra =>
            fst (Image (wrapper overnight) (Date 2024 1 1 12 0 0 0 UTC)
                       "image/jpeg" extra (world0 7%nat))
            = ([255; 216; 7], mkMeta "image/jpeg", None))
         [markedFalse; markedString; unmarked; None].
Proof.
  assert (H : forall extra,
             ~ (exists m, extra = Some m
                          /\ m !! "fromDataManagement" = Some (VBool true)) ->
             fst (Image (wrapper overnight) (Date 2024 1 1 12 0 0 0 UTC)
                        "image/jpeg" extra (world0 7%nat))
             = ([255; 216; 7], mkMeta "image/jpeg", None)).
  { intros extra Hn.
    rewrite (proj1 (proj2 (proj2 (gate_requires_boolean_true (wrapper overnight)
               (Date 2024 1 1 12 0 0 0 UTC) "image/jpeg" extra (world0 7%nat)
               (gatedStream "22:00" "06:00") (world0 0%nat))) Hn)).
    reflexivity. }
  repeat (apply List.Forall_cons;
          [apply H; intros (m & Hm & Hv); try discriminate Hm;
           injection Hm as <-; vm_compute in Hv; discriminate Hv|]).
  apply List.Forall_nil.
Defined.

(** C6. With neither daily hours nor a weekly schedule configured, an
    instant is in the window exactly when one of the listed ranges covers it,
    both ends included: the start and the end of a listed range are in the
    window, and one second after the end of the only range is not. *)
Theorem explicit_ranges_inclusive c t :
  hours c = false -> weekly c = false ->
  (inWindow c t = true <-> exists dr, dr ∈ Schedule c /\ covers t dr)
  /\ (forall dr, dr ∈ Schedule c ->
        unixNano (rangeStart dr) <= unixNano (rangeEnd dr) ->
        inWindow c (rangeStart dr) = true /\ inWindow c (rangeEnd dr) = true)
  /\ (forall dr, Schedule c = [dr] ->
        inWindow c (Add (rangeEnd dr) Second) = false).
Proof.
  intros Hh Hw.
  assert (Hall : forall u, inWindow c u = inRanges u (Schedule c))
    by (intros u; apply inWindow_fallthrough; [assumption | left; assumption]).
  split; [rewrite Hall; apply inRanges_true|].
  split.
  - intros dr Hin Hle. rewrite !Hall.
    split; apply inRanges_true; exists dr; (split; [exact Hin|]);
      unfold covers; lia.
  - intros dr Hs. rewrite Hall.
    destruct (inRanges (Add (rangeEnd dr) Second) (Schedule c)) eqn:E;
      [|reflexivity].
    apply inRanges_true in E as (dr' & Hin & Hc).
    rewrite Hs in Hin. apply list_elem_of_singleton in Hin as ->.
    unfold covers, Add, Second in Hc. cbn [unixNano] in Hc. lia.
Qed.

Lemma explicit_ranges_inclusive_witness :
  hours explicitOnly = false /\ weekly explicitOnly = false
  /\ inWindow explicitOnly (Date 2024 1 1 0 0 0 0 UTC) = true
  /\ inWindow explicitOnly (Date 2024 1 2 0 0 0 0 UTC) = true
  /\ inWindow explicitOnly (Date 2024 1 2 0 0 1 0 UTC) = false.
Proof.
  split; [reflexivity|]. split; [reflexivity|].
  pose proof (explicit_ranges_inclusive explicitOnly zeroTime eq_refl eq_refl)
    as (_ & Hb & Ha).
  destruct (Hb newYear (list_elem_of_here _ _)) as [Hs He];
    [vm_compute; discriminate|].
  split; [exact Hs|]. split; [exact He|].
  exact (Ha newYear eq_refl).
Defined.

(** C8. When the weekly schedule is used, validation fails as soon as one
    of the seven weekday names has no entry, an entry with an empty start or
    end, or an entry whose start or end does not parse as [HH:MM:SS]. *)
Theorem weekly_schedule_must_be_complete cfg path day :
  weekly cfg = true ->
  day ∈ days ->
  badEntry (WeeklySchedule cfg !! day) ->
  exists err, Validate cfg path = inl err.
Proof.
  intros Hw Hday Hbad.
  destruct (Validate cfg path) as [err|deps] eqn:E; [exists err; reflexivity|].
  apply Validate_inr in E as (_ & _ & _ & _ & Hok & _).
  specialize (Hok Hw). unfold weeklyOK in Hok.
  rewrite Forall_forall in Hok. specialize (Hok day Hday).
  unfold badEntry in Hbad. unfold goodEntry in Hok.
  destruct (WeeklySchedule cfg !! day) as [sh|]; [|contradiction].
  destruct Hok as (Hs & He & Hps & Hpe).
  destruct Hbad as [H | [H | [H | H]]]; contradiction.
Qed.

Lemma weekly_schedule_must_be_complete_witness :
  weekly noSunday = true /\ "sun" ∈ days
  /\ badEntry (WeeklySchedule noSunday !! "sun")
  /\ exists err, Validate noSunday "camera-1" = inl err.
Proof.
  assert (Hw : weekly noSunday = true) by reflexivity.
  assert (Hd : "sun" ∈ days)
    by (unfold days; repeat first [apply list_elem_of_here | apply list_elem_of_further]).
  assert (Hb : badEntry (WeeklySchedule noSunday !! "sun"))
    by (vm_compute; exact I).
  repeat (split; [assumption|]).
  exact (weekly_schedule_must_be_complete noSunday "camera-1" "sun" Hw Hd Hb).
Defined.

(** C9. In weekly mode, the weekly schedule being the variant configured
    (daily hours not both set, no explicit range listed), an instant whose
    weekday has no entry in the schedule is not in the window. *)
Theorem missing_weekday_is_outside_window c t :
  hours c = false -> weekly c = true -> dates c = false ->
  WeeklySchedule c !! dayKey t = None ->
  inWindow c t = false.
Proof.
  intros Hh _ Hd Hday.
  rewrite inWindow_fallthrough by (assumption || (right; assumption)).
  unfold dates in Hd. destruct (Schedule c); [reflexivity | discriminate Hd].
Qed.

Lemma missing_weekday_is_outside_window_witness :
  hours noSunday = false /\ weekly noSunday = true /\ dates noSunday = false
  /\ dayKey (Date 2024 1 7 12 0 0 0 UTC) = "sun"
  /\ WeeklySchedule noSunday !! "sun" = None
  /\ inWindow noSunday (Date 2024 1 7 12 0 0 0 UTC) = false.
Proof.
  assert (Hk : dayKey (Date 2024 1 7 12 0 0 0 UTC) = "sun")
    by (vm_compute; reflexivity).
  assert (Hd : WeeklySchedule noSunday !! "sun" = None)
    by (vm_compute; reflexivity).
  repeat (split; [first [reflexivity | exact Hk | exact Hd]|]).
  apply (missing_weekday_is_outside_window noSunday (Date 2024 1 7 12 0 0 0 UTC)
           eq_refl eq_refl eq_refl).
  rewrite Hk. exact Hd.
Defined.

(** Against C4: a configuration with daily hours and an explicit range, two
    variants and not exactly one, is accepted. *)
Lemma two_variants_accepted :
  variantsPopulated twoVariants = 2%nat
  /\ variantsPopulated twoVariants <> 1%nat
  /\ Validate twoVariants "camera-1" = inr ["cam"].
Proof.
  split; [vm_compute; reflexivity|].
  split; [vm_compute; discriminate | vm_compute; reflexivity].
Qed.

(** C4. Validation accepts a configuration exactly when the camera is named,
    at least one of the three variants is populated, and every populated
    variant is well formed; so a configuration populating none is rejected,
    and one populating several is accepted when each of them is well
    formed. *)
Theorem Validate_accepts_iff cfg path :
  (exists deps, Validate cfg path = inr deps) <->
  Camera cfg <> "" /\ (1 <= variantsPopulated cfg)%nat
  /\ (hours cfg = true -> hoursOK cfg)
  /\ (weekly cfg = true -> weeklyOK cfg)
  /\ (dates cfg = true -> datesOK cfg).
Proof.
  assert (Hany : hours cfg || weekly cfg || dates cfg = true
                 <-> (1 <= variantsPopulated cfg)%nat).
  { unfold variantsPopulated.
    destruct (hours cfg), (weekly cfg), (dates cfg); cbn; split;
      first [reflexivity | lia | discriminate]. }
  split.
  - intros (deps & H). apply Validate_inr in H. rewrite <- Hany. tauto.
  - intros H. exists [Camera cfg]. apply Validate_inr. rewrite Hany. tauto.
Qed.

Lemma Validate_accepts_iff_witness :
  variantsPopulated (mkConfig "cam" "" "" ∅ []) = 0%nat
  /\ ~ exists deps, Validate (mkConfig "cam" "" "" ∅ []) "camera-1" = inr deps.
Proof.
  split; [reflexivity|].
  intros H.
  apply (proj1 (Validate_accepts_iff (mkConfig "cam" "" "" ∅ []) "camera-1")) in H.
  destruct H as (_ & H & _). vm_compute in H. exact (Nat.nle_succ_0 0 H).
Defined.

(** * Further properties of validation and of the evaluator *)

Lemma clockOf_range p : 0 <= clockOf p < secondsPerDay.
Proof.
  unfold clockOf, HourOf, Minute, secondsPerDay.
  generalize (localSec p). intros x. dlia.
Qed.

(** Accepted configurations name their camera as the only dependency, and
    acceptance does not depend on the path used in the messages. *)
Theorem Validate_dependencies cfg path deps :
  Validate cfg path = inr deps ->
  deps = [Camera cfg] /\ Camera cfg <> ""
  /\ forall path', Validate cfg path' = inr deps.
Proof.
  intros H. pose proof (proj1 (Validate_inr cfg path deps) H) as Hc.
  split; [tauto|]. split; [tauto|].
  intros path'. apply Validate_inr. exact Hc.
Qed.

Lemma Validate_dependencies_witness :
  Validate daytime "camera-1" = inr ["cam"]
  /\ Validate daytime "camera-2" = inr ["cam"].
Proof.
  assert (H : Validate daytime "camera-1" = inr ["cam"]) by (vm_compute; reflexivity).
  split; [exact H|].
  exact (proj2 (proj2 (Validate_dependencies daytime "camera-1" ["cam"] H)) "camera-2").
Defined.

(** A listed range with an unparsable timestamp, or whose start is not
    strictly before its end, makes validation fail; a range that ends when
    it starts is among them. *)
Theorem bad_range_rejected cfg path dr :
  dr ∈ Schedule cfg -> badRange dr ->
  exists err, Validate cfg path = inl err.
Proof.
  intros Hin Hbad.
  destruct (Validate cfg path) as [err|deps] eqn:E; [exists err; reflexivity|].
  apply Validate_inr in E as (_ & _ & _ & _ & _ & Hok).
  assert (Hd : dates cfg = true).
  { unfold dates. destruct (Schedule cfg); [inversion Hin | reflexivity]. }
  specialize (Hok Hd). unfold datesOK in Hok. rewrite Forall_forall in Hok.
  destruct (Hok dr Hin) as (Hs & He & Hb).
  unfold Before in Hb. apply Z.ltb_lt in Hb.
  unfold badRange, rangeStart, rangeEnd in Hbad.
  destruct Hbad as [H | [H | H]]; [contradiction | contradiction | lia].
Qed.

Lemma bad_range_rejected_witness :
  badRange pointRange
  /\ exists err, Validate (mkConfig "cam" "" "" ∅ [pointRange]) "camera-1" = inl err.
Proof.
  assert (Hb : badRange pointRange)
    by (right; right; vm_compute; discriminate).
  split; [exact Hb|].
  exact (bad_range_rejected (mkConfig "cam" "" "" ∅ [pointRange]) "camera-1"
           pointRange (list_elem_of_here _ _) Hb).
Defined.

(** Daily hours count only when both are set: while one of them is empty,
    neither validation nor the evaluator looks at the other. *)
Theorem lone_hour_is_ignored cam s s' ws sched path t :
  Validate (mkConfig cam s "" ws sched) path
  = Validate (mkConfig cam s' "" ws sched) path
  /\ Validate (mkConfig cam "" s ws sched) path
     = Validate (mkConfig cam "" s' ws sched) path
  /\ inWindow (mkConfig cam s "" ws sched) t
     = inWindow (mkConfig cam s' "" ws sched) t
  /\ inWindow (mkConfig cam "" s ws sched) t
     = inWindow (mkConfig cam "" s' ws sched) t.
Proof.
  unfold Validate, inWindow, hours, weekly, dates, nonEmpty.
  cbn [Camera StartHours EndHours WeeklySchedule Schedule].
  change (negb ("" =? "")%string) with false.
  rewrite !andb_false_r. cbn [andb orb when]. repeat split; reflexivity.
Qed.

Lemma inWindow_entry c t sh :
  hours c = false ->
  WeeklySchedule c !! dayKey t = Some sh ->
  inWindow c t
  = within (clockHMS (fst (Parse Layout_15_04_05 (sh_Start sh))))
           (clockHMS (fst (Parse Layout_15_04_05 (sh_End sh))))
           (clockNanos t).
Proof.
  intros Hh Hday. unfold inWindow. fold (hours c). rewrite Hh.
  assert (Hsz : (0 <? size (WeeklySchedule c))%nat = true).
  { apply Nat.ltb_lt. destruct (size (WeeklySchedule c)) eqn:E; [|lia].
    apply map_size_empty_iff in E. rewrite E, lookup_empty in Hday.
    discriminate. }
  rewrite Hsz, Hday. apply anchored_window.
Qed.

(** In a location of fixed offset: with an entry for the weekday of the
    instant (and no daily hours) the instant is in the window exactly when
    its clock time is at or after the entry's start and at or before its
    end, an end before the start standing for that clock time of the next
    day (so that nothing between midnight and the start is in the window);
    the explicit ranges are not consulted. *)
Theorem inWindow_weekly_entry c t sh :
  hours c = false ->
  WeeklySchedule c !! dayKey t = Some sh ->
  inWindow c t
  = within (clockHMS (fst (Parse Layout_15_04_05 (sh_Start sh))))
           (clockHMS (fst (Parse Layout_15_04_05 (sh_End sh))))
           (clockNanos t).
Proof. apply inWindow_entry. Qed.

Lemma inWindow_weekly_entry_witness :
  inWindow weeklyOnly (Date 2024 1 1 18 0 0 0 UTC) = true
  /\ inWindow weeklyOnly (Date 2024 1 1 18 0 1 0 UTC) = false.
Proof.
  split.
  - rewrite (inWindow_weekly_entry weeklyOnly (Date 2024 1 1 18 0 0 0 UTC)
               workday eq_refl ltac:(vm_compute; reflexivity)).
    vm_compute. reflexivity.
  - rewrite (inWindow_weekly_entry weeklyOnly (Date 2024 1 1 18 0 1 0 UTC)
               workday eq_refl ltac:(vm_compute; reflexivity)).
    vm_compute. reflexivity.
Defined.

(** In an accepted configuration of the weekly variant every instant finds
    the entry of its weekday, well formed: the fall through to the explicit
    ranges does not happen. *)
Theorem accepted_weekly_never_falls_through c path deps t :
  Validate c path = inr deps ->
  hours c = false -> weekly c = true ->
  exists sh,
    WeeklySchedule c !! dayKey t = Some sh
    /\ goodEntry (Some sh)
    /\ inWindow c t
       = within (clockHMS (fst (Parse Layout_15_04_05 (sh_Start sh))))
                (clockHMS (fst (Parse Layout_15_04_05 (sh_End sh))))
                (clockNanos t).
Proof.
  intros Hv Hh Hw.
  apply Validate_inr in Hv as (_ & _ & _ & _ & Hok & _).
  specialize (Hok Hw). unfold weeklyOK in Hok. rewrite Forall_forall in Hok.
  specialize (Hok (dayKey t) (dayKey_in_days t)).
  destruct (WeeklySchedule c !! dayKey t) as [sh|] eqn:E; [|contradiction].
  exists sh. split; [reflexivity|]. split; [exact Hok|].
  apply inWindow_entry; assumption.
Qed.

Lemma accepted_weekly_never_falls_through_witness :
  exists sh, WeeklySchedule weeklyOnly !! "sun" = Some sh
             /\ inWindow weeklyOnly (Date 2024 1 7 12 0 0 0 UTC) = true.
Proof.
  destruct (accepted_weekly_never_falls_through weeklyOnly "camera-1" ["cam"]
              (Date 2024 1 7 12 0 0 0 UTC)
              ltac:(vm_compute; reflexivity) eq_refl eq_refl)
    as (sh & Hl & _ & Hin).
  exists sh. split; [exact Hl|].
  rewrite Hin. vm_compute in Hl. injection Hl as <-. vm_compute. reflexivity.
Defined.

(** Once both daily hours are set they decide alone: the weekly schedule and
    the explicit ranges have no influence on the answer. *)
Theorem daily_hours_take_priority c t ws sched :
  hours c = true ->
  inWindow (mkConfig (Camera c) (StartHours c) (EndHours c) ws sched) t
  = inWindow c t.
Proof.
  intros Hh. rewrite (inWindow_daily c t Hh).
  rewrite inWindow_daily by exact Hh. reflexivity.
Qed.

Lemma daily_hours_take_priority_witness :
  inWindow (mkConfig "cam" "08:00" "18:00" sevenDays [newYear])
           (Date 2024 1 1 19 0 0 0 UTC) = false.
Proof.
  pose proof (daily_hours_take_priority daytime (Date 2024 1 1 19 0 0 0 UTC)
                sevenDays [newYear] eq_refl) as H.
  change (inWindow (mkConfig "cam" "08:00" "18:00" sevenDays [newYear])
                   (Date 2024 1 1 19 0 0 0 UTC)
          = inWindow daytime (Date 2024 1 1 19 0 0 0 UTC)) in H.
  rewrite H. vm_compute. reflexivity.
Defined.

(** In a location of fixed offset: equal daily hours do not mean the whole
    day, the window is the single instant of that clock time. *)
Theorem equal_hours_single_instant c t :
  hours c = true -> startClock c = endClock c ->
  inWindow c t = true <-> clockNanos t = startClock c * Second.
Proof.
  intros Hh He. rewrite inWindow_daily_closed by (assumption || lia).
  rewrite He. unfold Second. lia.
Qed.

Lemma equal_hours_single_instant_witness :
  inWindow noonOnly (Date 2024 1 1 12 0 0 0 UTC) = true
  /\ inWindow noonOnly (Date 2024 1 1 12 0 0 1 UTC) <> true.
Proof.
  split.
  - apply (equal_hours_single_instant noonOnly (Date 2024 1 1 12 0 0 0 UTC)
             eq_refl eq_refl).
    vm_compute. reflexivity.
  - intros H.
    apply (equal_hours_single_instant noonOnly (Date 2024 1 1 12 0 0 1 UTC)
             eq_refl eq_refl) in H.
    vm_compute in H. discriminate H.
Defined.

(** In a location of fixed offset: when the end of the daily hours is
    before their start, an instant is in the window exactly from the start
    time of its own date on, and no instant between midnight and the start
    time is in it. *)
Theorem overnight_hours_open_at_start c t :
  hours c = true -> endClock c < startClock c ->
  inWindow c t = true <-> startClock c * Second <= clockNanos t.
Proof.
  intros Hh Hlt. apply inWindow_daily_overnight; [assumption|].
  pose proof (clockOf_range (fst (Parse Layout_15_04 (EndHours c)))) as H.
  unfold endClock in *. lia.
Qed.

Lemma overnight_hours_open_at_start_witness :
  inWindow overnight (Date 2024 1 1 5 59 0 0 UTC) <> true.
Proof.
  intros H.
  apply (overnight_hours_open_at_start overnight (Date 2024 1 1 5 59 0 0 UTC)
           eq_refl ltac:(vm_compute; reflexivity)) in H.
  vm_compute in H. apply H. reflexivity.
Defined.

(** In an accepted configuration of the explicit ranges alone, the start and
    the end of every listed range are in the window. *)
Theorem accepted_ranges_hold_their_bounds c path deps dr :
  Validate c path = inr deps ->
  hours c = false -> weekly c = false ->
  dr ∈ Schedule c ->
  inWindow c (rangeStart dr) = true /\ inWindow c (rangeEnd dr) = true.
Proof.
  intros Hv Hh Hw Hin.
  apply Validate_inr in Hv as (_ & _ & _ & _ & _ & Hok).
  assert (Hd : dates c = true).
  { unfold dates. destruct (Schedule c); [inversion Hin | reflexivity]. }
  specialize (Hok Hd). unfold datesOK in Hok. rewrite Forall_forall in Hok.
  destruct (Hok dr Hin) as (_ & _ & Hb).
  unfold Before in Hb. apply Z.ltb_lt in Hb.
  assert (Hall : forall u, inWindow c u = inRanges u (Schedule c))
    by (intros u; apply inWindow_fallthrough; [assumption | left; assumption]).
  rewrite !Hall.
  split; apply inRanges_true; exists dr; (split; [exact Hin|]);
    unfold covers, rangeStart, rangeEnd; lia.
Qed.

Lemma accepted_ranges_hold_their_bounds_witness :
  inWindow explicitOnly (rangeStart newYear) = true
  /\ inWindow explicitOnly (rangeEnd newYear) = true.
Proof.
  exact (accepted_ranges_hold_their_bounds explicitOnly "camera-1" ["cam"] newYear
           ltac:(vm_compute; reflexivity) eq_refl eq_refl (list_elem_of_here _ _)).
Defined.

(** The key looked up in the weekly schedule is the first three letters of
    the weekday's name in lower case, always one of the seven names that
    validation requires. *)
Theorem weekday_key_is_a_validated_name t :
  dayKey t ∈ days
  /\ dayKey t = nth (Z.to_nat (Weekday t))
                    ["sun"; "mon"; "tue"; "wed"; "thu"; "fri"; "sat"] "".
Proof.
  split; [apply dayKey_in_days|].
  unfold dayKey. assert (H : 0 <= Weekday t < 7) by (unfold Weekday; dlia).
  assert (Hc : Weekday t = 0 \/ Weekday t = 1 \/ Weekday t = 2 \/ Weekday t = 3
               \/ Weekday t = 4 \/ Weekday t = 5 \/ Weekday t = 6) by lia.
  destruct Hc as [-> | [-> | [-> | [-> | [-> | [-> | ->]]]]]]; reflexivity.
Qed.

(** With both daily hours set and the end not before the start, an instant
    is in the window exactly when its clock time lies between the two, both
    included, to the nanosecond, on every date and in every location of
    fixed offset. *)
Theorem daily_hours_window_is_closed c t :
  hours c = true -> startClock c <= endClock c ->
  inWindow c t = true <->
  startClock c * Second <= clockNanos t <= endClock c * Second.
Proof. apply inWindow_daily_closed. Qed.

Lemma daily_hours_window_is_closed_witness :
  inWindow daytime (Date 2024 2 29 18 0 0 0 (FixedZone "CET" 3600)) = true
  /\ inWindow daytime (Date 2024 2 29 18 0 0 1 (FixedZone "CET" 3600)) <> true.
Proof.
  split.
  - apply (daily_hours_window_is_closed daytime
             (Date 2024 2 29 18 0 0 0 (FixedZone "CET" 3600)) eq_refl
             ltac:(vm_compute; discriminate)).
    vm_compute. split; discriminate.
  - intros H.
    apply (daily_hours_window_is_closed daytime
             (Date 2024 2 29 18 0 0 1 (FixedZone "CET" 3600)) eq_refl
             ltac:(vm_compute; discriminate)) in H.
    vm_compute in H. destruct H as [_ H]. apply H. reflexivity.
Defined.

(** * Construction, reconfiguration and shutdown of the camera wrapper *)

(** A configuration that does not convert or does not validate is refused
    by [Reconfigure] with its error, and name, configuration and inner
    camera stay as they were; the inner camera's state is not touched. *)
Theorem Reconfigure_refusal_changes_nothing {S} (c : timedCameraFields S)
        deps rawConf w err :
  NativeConfig rawConf = inl err
  \/ (exists conf, NativeConfig rawConf = inr conf
                   /\ Validate conf (ResourceName rawConf) = inl err) ->
  fst (Reconfigure c deps rawConf w) = (Some err, c)
  /\ innerState (snd (Reconfigure c deps rawConf w)) = innerState w.
Proof.
  unfold Reconfigure. intros [H | (conf & H & Hv)]; rewrite H.
  - split; reflexivity.
  - rewrite Hv. split; reflexivity.
Qed.

Lemma Reconfigure_refusal_changes_nothing_witness :
  exists err,
    fst (Reconfigure (fieldsOf (wrapper daytime)) onlyCam (rawOf noSunday)
                     (world0 0%nat))
    = (Some err, fieldsOf (wrapper daytime)).
Proof.
  eexists.
  apply (Reconfigure_refusal_changes_nothing (fieldsOf (wrapper daytime)) onlyCam
           (rawOf noSunday) (world0 0%nat)).
  right. exists noSunday. split; [reflexivity | vm_compute; reflexivity].
Defined.

(** An accepted configuration is installed with its name even when its
    camera does not resolve: the call then returns the resolution error and
    leaves the wrapper without an inner camera. When the camera resolves, it
    becomes the inner camera and no error is returned. *)
Theorem Reconfigure_installs_before_resolving {S} (c : timedCameraFields S)
        deps rawConf w conf names :
  NativeConfig rawConf = inr conf ->
  Validate conf (ResourceName rawConf) = inr names ->
  let after := snd (fst (Reconfigure c deps rawConf w)) in
  f_name after = ResourceName rawConf /\ f_cfg after = conf
  /\ snd (Reconfigure c deps rawConf w) = w
  /\ match deps (Camera conf) with
     | inl err =>
         fst (fst (Reconfigure c deps rawConf w)) = Some err
         /\ f_inner after = None
     | inr innerCam =>
         fst (fst (Reconfigure c deps rawConf w)) = None
         /\ f_inner after = Some innerCam
     end.
Proof.
  intros Hn Hv. cbv zeta. unfold Reconfigure. rewrite Hn, Hv.
  destruct (deps (Camera conf)); repeat split; reflexivity.
Qed.

Lemma Reconfigure_installs_before_resolving_witness :
  let r := fst (Reconfigure (fieldsOf (wrapper daytime)) onlyCam
                            (rawOf otherCamera) (world0 0%nat)) in
  fst r = Some (Failure "resource not found")
  /\ f_cfg (snd r) = otherCamera /\ f_inner (snd r) = None.
Proof.
  cbv zeta.
  pose proof (Reconfigure_installs_before_resolving (fieldsOf (wrapper daytime))
                onlyCam (rawOf otherCamera) (world0 0%nat) otherCamera ["other"]
                eq_refl ltac:(vm_compute; reflexivity)) as (_ & Hc & _ & He).
  cbn in He. destruct He as [He Hi].
  split; [exact He|]. split; [exact Hc | exact Hi].
Defined.

(** Whatever sequence of reconfigurations a constructed wrapper has been
    through, the configuration it holds is one that validation accepts
    under the name it holds. *)
Theorem reachable_configuration_is_accepted {S} (c : timedCameraFields S) :
  reachable c -> exists names, Validate (f_cfg c) (f_name c) = inr names.
Proof.
  induction 1 as [deps rawConf c Hnew | c deps rawConf w Hr IH].
  - unfold newTimedCamera in Hnew.
    destruct (NativeConfig rawConf) as [e|conf]; [discriminate|].
    destruct (Validate conf (ResourceName rawConf)) as [e|names] eqn:Hv;
      [discriminate|].
    destruct (deps (Camera conf)) as [e|innerCam]; [discriminate|].
    injection Hnew as <-. exists names. exact Hv.
  - unfold Reconfigure.
    destruct (NativeConfig rawConf) as [e|conf]; [exact IH|].
    destruct (Validate conf (ResourceName rawConf)) as [e|names] eqn:Hv;
      [exact IH|].
    destruct (deps (Camera conf)) as [e|innerCam]; exists names; exact Hv.
Qed.

Lemma reachable_configuration_is_accepted_witness :
  newTimedCamera onlyCam (rawOf daytime)
  = inr (mkTimedCamera "camera-1" daytime pcdCamera)
  /\ exists names, Validate daytime "camera-1" = inr names.
Proof.
  split; [vm_compute; reflexivity|].
  apply (reachable_configuration_is_accepted
           (fieldsOf (mkTimedCamera "camera-1" daytime pcdCamera))).
  apply (reach_new onlyCam (rawOf daytime)). vm_compute. reflexivity.
Defined.

(** [Close] returns no error and touches neither the inner camera nor the
    log; closing twice is closing once, and a closed wrapper answers
    [Image] as an open one does. *)
Theorem Close_leaves_the_wrapper_working {S} (c : timedCamera S)
        now mimeType extra w :
  let closed := snd (Close c w) in
  fst (Close c w) = None
  /\ innerState closed = innerState w /\ logged closed = logged w
  /\ snd (Close c closed) = closed
  /\ fst (Image c now mimeType extra closed) = fst (Image c now mimeType extra w)
  /\ innerState (snd (Image c now mimeType extra closed))
     = innerState (snd (Image c now mimeType extra w)).
Proof.
  cbv zeta. repeat (split; [reflexivity|]).
  unfold Image, Close, mbind, M_bind, mret, M_ret, log, call.
  destruct (fromDataManagement extra); [destruct (inWindow (cfg c) now)|];
    cbn [negb snd innerState logged cancelled]; try (split; reflexivity);
    destruct (cam_Image (inner c) mimeType extra (innerState w));
    split; reflexivity.
Qed.

(** * Further properties of the sensor *)

Lemma parses_nonempty layout : ~ parses layout "".
Proof. destruct layout; vm_compute; discriminate. Qed.

Lemma parses_inv layout value :
  parses layout value -> exists p, Parse layout value = (p, None).
Proof.
  unfold parses. destruct (Parse layout value) as [p [e|]]; cbn;
    [discriminate | intros _; exists p; reflexivity].
Qed.

Lemma not_parses_inv layout value :
  ~ parses layout value -> exists p e, Parse layout value = (p, Some e).
Proof.
  unfold parses. destruct (Parse layout value) as [p [e|]]; cbn;
    [intros _; exists p, e; reflexivity | intros H; contradiction H; reflexivity].
Qed.

Section SensorProperties.
Import TimeSyncSensor.

Lemma sensor_Validate_inr cfg path deps :
  Validate cfg path = inr deps <->
  deps = [] /\ hoursParse (StartHours cfg) (EndHours cfg).
Proof.
  unfold Validate, hoursParse.
  destruct (String.eqb_spec (StartHours cfg) "") as [Hs|Hs].
  { cbn. rewrite Hs. split; [discriminate|].
    intros (_ & H & _). contradiction (parses_nonempty _ H). }
  destruct (String.eqb_spec (EndHours cfg) "") as [He|He].
  { cbn. rewrite He. split; [discriminate|].
    intros (_ & _ & H). contradiction (parses_nonempty _ H). }
  cbn [orb]. unfold parses.
  destruct (Parse Layout_15_04 (StartHours cfg)) as [ps [e|]]; cbn [snd];
    [split; [discriminate | intros (_ & H & _); discriminate]|].
  destruct (Parse Layout_15_04 (EndHours cfg)) as [pe [e|]]; cbn [snd];
    [split; [discriminate | intros (_ & _ & H); discriminate]|].
  split; [intros [= <-]; tauto | intros (-> & _); reflexivity].
Qed.

Lemma Readings_overnight s t extra w sh eh :
  Parse Layout_15_04 (StartHours (cfg s)) = (sh, None) ->
  Parse Layout_15_04 (EndHours (cfg s)) = (eh, None) ->
  exists m, Readings s t extra w = (inr m, w)
            /\ m !! "overnight_time_range" = Some (VBool (clockOf eh <? clockOf sh)).
Proof.
  intros Hs He. unfold Readings. rewrite Hs, He.
  assert (Ha : After (Date (Year t) (Month t) (Day t) (HourOf sh) (Minute sh) 0 0 (Loc t))
                     (Date (Year t) (Month t) (Day t) (HourOf eh) (Minute eh) 0 0 (Loc t))
               = (clockOf eh <? clockOf sh)).
  { unfold After, clockOf. rewrite !Date_same_day. unfold Second.
    destruct (Z.ltb_spec (HourOf eh * 3600 + Minute eh * 60)
                         (HourOf sh * 3600 + Minute sh * 60));
      [apply Z.ltb_lt | apply Z.ltb_ge]; lia. }
  rewrite Ha.
  destruct (clockOf eh <? clockOf sh); eexists; (split; [reflexivity|]);
    rewrite list_to_map_cons, lookup_insert_ne by discriminate;
    rewrite list_to_map_cons, lookup_insert_eq; reflexivity.
Qed.

(** For a configuration that validation accepts, [Readings] never fails and
    logs nothing. In a location of fixed offset, [should_sync] is true
    exactly when the clock time is at or after the start and at or before
    the end, an end before the start standing for that clock time of the
    next day (so that with 22:00 to 06:00 only the clock times from 22:00 to
    midnight count), and [overnight_time_range] is true exactly when the end
    is before the start. *)
Theorem Readings_of_accepted_configuration s path deps t extra w :
  Validate (cfg s) path = inr deps ->
  let S := clockOf (fst (Parse Layout_15_04 (StartHours (cfg s)))) in
  let E := clockOf (fst (Parse Layout_15_04 (EndHours (cfg s)))) in
  snd (Readings s t extra w) = w
  /\ reading "should_sync" (fst (Readings s t extra w))
     = Some (VBool (within S E (clockNanos t)))
  /\ reading "overnight_time_range" (fst (Readings s t extra w))
     = Some (VBool (E <? S)).
Proof.
  intros Hv. apply sensor_Validate_inr in Hv as (_ & Hs & He).
  apply parses_inv in Hs as (sh & Hs). apply parses_inv in He as (eh & He).
  cbv zeta. rewrite Hs, He. cbn [fst].
  destruct (Readings_should_sync s t extra w sh eh Hs He) as (m & Hr & Hm).
  destruct (Readings_overnight s t extra w sh eh Hs He) as (m' & Hr' & Hm').
  assert (m' = m) as -> by congruence.
  rewrite Hr. cbn [fst snd reading]. repeat split; assumption.
Qed.

Lemma Readings_of_accepted_configuration_witness :
  reading "overnight_time_range"
          (fst (Readings overnightSensor (Date 2024 1 1 12 0 0 0 UTC) None (world0 tt)))
  = Some (VBool true).
Proof.
  exact (proj2 (proj2 (Readings_of_accepted_configuration overnightSensor
           "sensor-1" [] (Date 2024 1 1 12 0 0 0 UTC) None (world0 tt)
           ltac:(vm_compute; reflexivity)))).
Defined.

Lemma Readings_parse_failure s t extra w :
  ~ hoursParse (StartHours (cfg s)) (EndHours (cfg s)) ->
  exists e msg,
    Readings s t extra w
    = (inl (ParseFailed e),
       mkWorld (innerState w) (logged w ++ [mkLog Error msg [LParse e]])
               (cancelled w)).
Proof.
  intros Hn. unfold Readings.
  destruct (Parse Layout_15_04 (StartHours (cfg s))) as [sh [e|]] eqn:Hs;
    [eexists _, _; reflexivity|].
  destruct (Parse Layout_15_04 (EndHours (cfg s))) as [eh [e|]] eqn:He;
    [eexists _, _; reflexivity|].
  contradiction Hn. unfold hoursParse, parses. rewrite Hs, He. split; reflexivity.
Qed.

(** When one of the hours does not parse, [Readings] returns the parse
    error, no reading, and logs exactly one error entry. *)
Theorem Readings_fails_on_unparsable_hours s t extra w :
  ~ hoursParse (StartHours (cfg s)) (EndHours (cfg s)) ->
  exists e msg,
    Readings s t extra w
    = (inl (ParseFailed e),
       mkWorld (innerState w) (logged w ++ [mkLog Error msg [LParse e]])
               (cancelled w)).
Proof. apply Readings_parse_failure. Qed.

Lemma Readings_fails_on_unparsable_hours_witness :
  exists e, fst (Readings (mkTimeSensor "sync" brokenHours)
                          (Date 2024 1 1 12 0 0 0 UTC) None (world0 tt))
            = inl (ParseFailed e).
Proof.
  destruct (Readings_fails_on_unparsable_hours (mkTimeSensor "sync" brokenHours)
              (Date 2024 1 1 12 0 0 0 UTC) None (world0 tt)
              ltac:(intros [H _]; vm_compute in H; discriminate H))
    as (e & msg & H).
  exists e. rewrite H. reflexivity.
Defined.

(** [Reconfigure] of the sensor does not validate: a converted configuration
    that validation rejects is installed without error, and from then on
    every reading fails with the parse error. *)
Theorem sensor_Reconfigure_installs_rejected_configuration
        s rawConf w conf path err t extra w' :
  NativeConfig rawConf = inr conf ->
  Validate conf path = inl err ->
  Reconfigure s rawConf w = ((None, mkTimeSensor (ResourceName rawConf) conf), w)
  /\ exists e, fst (Readings (snd (fst (Reconfigure s rawConf w))) t extra w')
               = inl (ParseFailed e).
Proof.
  intros Hn Hv. unfold Reconfigure. rewrite Hn. split; [reflexivity|].
  unfold mret, M_ret. cbn [fst snd].
  assert (Hp : ~ hoursParse (StartHours conf) (EndHours conf)).
  { intros Hp. assert (H : Validate conf path = inr [])
      by (apply sensor_Validate_inr; split; [reflexivity | exact Hp]).
    rewrite H in Hv. discriminate. }
  destruct (Readings_parse_failure
              (mkTimeSensor (ResourceName rawConf) conf) t extra w' Hp)
    as (e & msg & H).
  exists e. rewrite H. reflexivity.
Qed.

Lemma sensor_Reconfigure_installs_rejected_configuration_witness :
  fst (fst (Reconfigure daytimeSensor (rawOf brokenHours) (world0 tt))) = None
  /\ cfg (snd (fst (Reconfigure daytimeSensor (rawOf brokenHours) (world0 tt))))
     = brokenHours.
Proof.
  destruct (sensor_Reconfigure_installs_rejected_configuration daytimeSensor
              (rawOf brokenHours) (world0 tt) brokenHours "sensor-1"
              (Errorf "invalid start_hours format (HH:MM) for component %q"
                      [AStr "sensor-1"])
              (Date 2024 1 1 12 0 0 0 UTC) None (world0 tt)
              eq_refl ltac:(vm_compute; reflexivity)) as [H _].
  rewrite H. split; reflexivity.
Defined.

End SensorProperties.

Section SensorRevisions.

(** In a location of fixed offset: the sensor revision reporting
    [within_time_range] has no window over midnight, when the end is not
    after the start no instant is in range. *)
Theorem within_time_range_never_overnight s t extra w sh eh :
  Parse Layout_15_04 (TimeSyncSensorRange.StartHours (TimeSyncSensorRange.cfg s)) = (sh, None) ->
  Parse Layout_15_04 (TimeSyncSensorRange.EndHours (TimeSyncSensorRange.cfg s)) = (eh, None) ->
  clockOf eh <= clockOf sh ->
  reading "within_time_range" (fst (TimeSyncSensorRange.Readings s t extra w))
  = Some (VBool false).
Proof.
  intros Hs He Hle. rewrite (Readings_within_time_range s t extra w sh eh Hs He).
  cbn [fst reading]. rewrite lookup_singleton_eq. do 2 f_equal.
  unfold strictlyWithin, Second.
  destruct (Z.ltb_spec (clockOf sh * 1000000000) (clockNanos t));
    destruct (Z.ltb_spec (clockNanos t) (clockOf eh * 1000000000));
    cbn; try reflexivity; lia.
Qed.

Lemma within_time_range_never_overnight_witness :
  reading "within_time_range"
    (fst (TimeSyncSensorRange.Readings
            (TimeSyncSensorRange.mkTimeSensor "sync"
               (TimeSyncSensorRange.mkConfig "22:00" "06:00"))
            (Date 2024 1 1 23 0 0 0 UTC) None (world0 tt)))
  = Some (VBool false).
Proof.
  apply (within_time_range_never_overnight
           (TimeSyncSensorRange.mkTimeSensor "sync"
              (TimeSyncSensorRange.mkConfig "22:00" "06:00"))
           (Date 2024 1 1 23 0 0 0 UTC) None (world0 tt) _ _ eq_refl eq_refl).
  vm_compute. discriminate.
Defined.

(** In a location of fixed offset: with the same hours within one day, the
    two sensor revisions agree on every instant except the two ends of the
    window, which only the [should_sync] revision counts in. *)
Theorem sensor_revisions_differ_at_the_ends s s' t extra w sh eh :
  Parse Layout_15_04 (TimeSyncSensor.StartHours (TimeSyncSensor.cfg s)) = (sh, None) ->
  Parse Layout_15_04 (TimeSyncSensor.EndHours (TimeSyncSensor.cfg s)) = (eh, None) ->
  TimeSyncSensorRange.StartHours (TimeSyncSensorRange.cfg s')
  = TimeSyncSensor.StartHours (TimeSyncSensor.cfg s) ->
  TimeSyncSensorRange.EndHours (TimeSyncSensorRange.cfg s')
  = TimeSyncSensor.EndHours (TimeSyncSensor.cfg s) ->
  clockOf sh <= clockOf eh ->
  exists inRange,
    reading "within_time_range" (fst (TimeSyncSensorRange.Readings s' t extra w))
    = Some (VBool inRange)
    /\ reading "should_sync" (fst (TimeSyncSensor.Readings s t extra w))
       = Some (VBool (inRange
                      || (clockNanos t =? clockOf sh * Second)
                      || (clockNanos t =? clockOf eh * Second))).
Proof.
  intros Hs He Hs' He' Hle.
  rewrite <- Hs' in Hs. rewrite <- He' in He.
  exists (strictlyWithin (clockOf sh) (clockOf eh) (clockNanos t)).
  rewrite (Readings_within_time_range s' t extra w sh eh Hs He).
  cbn [fst reading]. rewrite lookup_singleton_eq. split; [reflexivity|].
  rewrite Hs' in Hs. rewrite He' in He.
  destruct (Readings_should_sync s t extra w sh eh Hs He) as (m & -> & Hm).
  cbn [fst reading]. rewrite Hm. do 2 f_equal.
  unfold within, strictlyWithin, Second, secondsPerDay.
  rewrite (proj2 (Z.ltb_ge (clockOf eh) (clockOf sh))) by lia.
  repeat match goal with
         | |- context [?a <? ?b] => destruct (Z.ltb_spec a b)
         | |- context [?a <=? ?b] => destruct (Z.leb_spec a b)
         | |- context [?a =? ?b] => destruct (Z.eqb_spec a b)
         end; cbn; try reflexivity; lia.
Qed.

Lemma sensor_revisions_differ_at_the_ends_witness :
  reading "should_sync"
          (fst (TimeSyncSensor.Readings daytimeSensor (Date 2024 1 1 8 0 0 0 UTC)
                                         None (world0 tt)))
  = Some (VBool true).
Proof.
  destruct (sensor_revisions_differ_at_the_ends daytimeSensor daytimeSensorRange
              (Date 2024 1 1 8 0 0 0 UTC) None (world0 tt) _ _
              eq_refl eq_refl eq_refl eq_refl ltac:(vm_compute; discriminate))
    as (b & Hb & Hs).
  rewrite Hs. vm_compute in Hb. injection Hb as <-. vm_compute. reflexivity.
Defined.

End SensorRevisions.

(** * Further properties of the gated stream revision *)

Section StreamProperties.
Context {S Img Release : Type}.
Import TimeSelectCameraStream.

(** Validation of the stream revision accepts exactly the configurations
    that name a camera and whose two hours parse as [HH:MM]; the test for
    empty hours adds nothing, as an empty value does not parse. *)
Theorem stream_Validate_accepts_iff cfg path :
  (exists deps, Validate cfg path = inr deps) <->
  Camera cfg <> "" /\ hoursParse (StartHours cfg) (EndHours cfg).
Proof.
  unfold Validate, hoursParse.
  destruct (String.eqb_spec (Camera cfg) "") as [Hc|Hc];
    [split; [intros (d & H); discriminate | tauto]|].
  destruct (String.eqb_spec (StartHours cfg) "") as [Hs|Hs].
  { cbn. rewrite Hs. split; [intros (d & H); discriminate|].
    intros (_ & H & _). contradiction (parses_nonempty _ H). }
  destruct (String.eqb_spec (EndHours cfg) "") as [He|He].
  { cbn. rewrite He. split; [intros (d & H); discriminate|].
    intros (_ & _ & H). contradiction (parses_nonempty _ H). }
  cbn [orb]. unfold parses.
  destruct (Parse Layout_15_04 (StartHours cfg)) as [ps [e|]]; cbn [snd];
    [split; [intros (d & H); discriminate | intros (_ & H & _); discriminate]|].
  destruct (Parse Layout_15_04 (EndHours cfg)) as [pe [e|]]; cbn [snd];
    [split; [intros (d & H); discriminate | intros (_ & _ & H); discriminate]|].
  split; [tauto | intros _; eexists; reflexivity].
Qed.

(** In a location of fixed offset, a marked request whose hours parse is
    gated by its clock time: when that is at or after the start and at or
    before the end, an end before the start standing for that clock time of
    the next day (so that with 22:00 to 06:00 only the clock times from
    22:00 to midnight count), [Next] hands on the inner stream's answer;
    otherwise it returns the sentinel and does not ask the inner stream. *)
Theorem marked_Next_is_gated (ts : timedStream S Img Release) ctx now w extra :
  ctxExtra ctx = Some extra ->
  fromDataManagement extra = true ->
  hoursParse (StartHours (cfg (c ts))) (EndHours (cfg (c ts))) ->
  let inside :=
    within (clockOf (fst (Parse Layout_15_04 (StartHours (cfg (c ts))))))
           (clockOf (fst (Parse Layout_15_04 (EndHours (cfg (c ts))))))
           (clockNanos now) in
  (inside = false ->
   fst (Next ts ctx now w) = (None, None, Some ErrNoCaptureToStore)
   /\ innerState (snd (Next ts ctx now w)) = innerState w)
  /\ (inside = true ->
      fst (Next ts ctx now w)
      = delivered (fst (vs_Next (cameraStream ts) ctx (innerState w)))
      /\ innerState (snd (Next ts ctx now w))
         = snd (vs_Next (cameraStream ts) ctx (innerState w))).
Proof.
  intros Hctx Hm [Hs He].
  apply parses_inv in Hs as (sh & Hs). apply parses_inv in He as (eh & He).
  cbv zeta. rewrite Hs, He. cbn [fst].
  pose proof (Next_marked ts ctx now w extra sh eh Hctx Hm Hs He) as H.
  destruct (within (clockOf sh) (clockOf eh) (clockNanos now));
    split; intros E; try discriminate E; exact H.
Qed.

Lemma Next_parse_failure (ts : timedStream S Img Release) ctx now w extra :
  ctxExtra ctx = Some extra ->
  fromDataManagement extra = true ->
  ~ hoursParse (StartHours (cfg (c ts))) (EndHours (cfg (c ts))) ->
  exists e,
    fst (Next ts ctx now w) = (None, None, Some (ParseFailed e))
    /\ innerState (snd (Next ts ctx now w)) = innerState w.
Proof.
  intros Hctx Hm Hn. unfold Next. rewrite Hctx.
  fold (fromDataManagement extra). rewrite Hm.
  destruct (Parse Layout_15_04 (StartHours (cfg (c ts)))) as [sh [e|]] eqn:Hs;
    [exists e; split; reflexivity|].
  destruct (Parse Layout_15_04 (EndHours (cfg (c ts)))) as [eh [e|]] eqn:He;
    [exists e; split; reflexivity|].
  contradiction Hn. unfold hoursParse, parses. rewrite Hs, He. split; reflexivity.
Qed.

(** A marked request whose hours do not parse fails with the parse error,
    and the inner stream is not asked. *)
Theorem marked_Next_fails_on_unparsable_hours
        (ts : timedStream S Img Release) ctx now w extra :
  ctxExtra ctx = Some extra ->
  fromDataManagement extra = true ->
  ~ hoursParse (StartHours (cfg (c ts))) (EndHours (cfg (c ts))) ->
  exists e,
    fst (Next ts ctx now w) = (None, None, Some (ParseFailed e))
    /\ innerState (snd (Next ts ctx now w)) = innerState w.
Proof. apply Next_parse_failure. Qed.

(** [Reconfigure] of the stream revision assigns name and configuration
    without validating them and before resolving the camera: with an
    unresolved camera it returns the error but keeps the new configuration
    next to the previous inner camera; and once the installed hours do not
    parse, every marked request on a stream of the wrapper fails. *)
Theorem stream_Reconfigure_assigns_first
        (cf : cameraFields S Img Release) deps rawConf w conf :
  NativeConfig rawConf = inr conf ->
  let after := snd (fst (Reconfigure cf deps rawConf w)) in
  cfg (self after) = conf /\ name (self after) = ResourceName rawConf
  /\ innerState (snd (Reconfigure cf deps rawConf w)) = innerState w
  /\ (forall err, deps (Camera conf) = inl err ->
        fst (fst (Reconfigure cf deps rawConf w)) = Some err
        /\ cam after = cam cf)
  /\ (~ hoursParse (StartHours conf) (EndHours conf) ->
      forall (vs : VideoStream S Img Release) ctx extra now (w' : World S),
        ctxExtra ctx = Some extra -> fromDataManagement extra = true ->
        exists e, fst (Next (mkTimedStream vs (self after)) ctx now w')
                  = (None, None, Some (ParseFailed e))).
Proof.
  intros Hn. cbv zeta. unfold Reconfigure. rewrite Hn.
  destruct (deps (Camera conf)) as [err|cam'] eqn:Hd;
    cbn [fst snd self cam cfg name];
    (split; [reflexivity|]); (split; [reflexivity|]);
    (split; [reflexivity|]);
    (split; [intros err' [= <-]; split; reflexivity|]);
    intros Hp vs ctx extra now w' Hctx Hm;
    (destruct (Next_parse_failure
                 (mkTimedStream vs (mkTimedCamera (ResourceName rawConf) conf))
                 ctx now w' extra Hctx Hm Hp) as (e & He & _));
    exists e; exact He.
Qed.

End StreamProperties.

Lemma stream_Validate_accepts_iff_witness :
  ~ exists deps,
      TimeSelectCameraStream.Validate
        (TimeSelectCameraStream.mkConfig "cam" "08:00" "") "camera-1" = inr deps.
Proof.
  intros H.
  apply (proj1 (stream_Validate_accepts_iff
                  (TimeSelectCameraStream.mkConfig "cam" "08:00" "") "camera-1"))
    in H.
  destruct H as (_ & _ & H). vm_compute in H. discriminate H.
Defined.

Lemma marked_Next_is_gated_witness :
  fst (TimeSelectCameraStream.Next (gatedStream "08:00" "18:00")
         (TimeSelectCameraStream.mkContext (Some marked))
         (Date 2024 1 1 23 0 0 0 UTC) (world0 3%nat))
  = (None, None, Some ErrNoCaptureToStore).
Proof.
  apply (marked_Next_is_gated (gatedStream "08:00" "18:00")
           (TimeSelectCameraStream.mkContext (Some marked))
           (Date 2024 1 1 23 0 0 0 UTC) (world0 3%nat) marked eq_refl eq_refl
           ltac:(split; vm_compute; reflexivity)).
  vm_compute. reflexivity.
Defined.

Lemma marked_Next_fails_on_unparsable_hours_witness :
  exists e,
    fst (TimeSelectCameraStream.Next (gatedStream "8 o'clock" "18:00")
           (TimeSelectCameraStream.mkContext (Some marked))
           (Date 2024 1 1 12 0 0 0 UTC) (world0 3%nat))
    = (None, None, Some (ParseFailed e)).
Proof.
  destruct (marked_Next_fails_on_unparsable_hours (gatedStream "8 o'clock" "18:00")
              (TimeSelectCameraStream.mkContext (Some marked))
              (Date 2024 1 1 12 0 0 0 UTC) (world0 3%nat) marked eq_refl eq_refl
              ltac:(intros [H _]; vm_compute in H; discriminate H))
    as (e & He & _).
  exists e. exact He.
Defined.

Lemma stream_Reconfigure_assigns_first_witness :
  let cf := TimeSelectCameraStream.mkCameraFields
              (TimeSelectCameraStream.mkTimedCamera "camera-1"
                 (TimeSelectCameraStream.mkConfig "cam" "08:00" "18:00"))
              countingSource in
  let conf := TimeSelectCameraStream.mkConfig "other" "8 o'clock" "18:00" in
  let r := fst (TimeSelectCameraStream.Reconfigure cf noSource (rawOf conf)
                                                   (world0 0%nat)) in
  fst r = Some (Failure "resource not found")
  /\ TimeSelectCameraStream.cfg (TimeSelectCameraStream.self (snd r)) = conf
  /\ TimeSelectCameraStream.cam (snd r) = countingSource.
Proof.
  cbv zeta.
  pose proof (stream_Reconfigure_assigns_first
                (TimeSelectCameraStream.mkCameraFields
                   (TimeSelectCameraStream.mkTimedCamera "camera-1"
                      (TimeSelectCameraStream.mkConfig "cam" "08:00" "18:00"))
                   countingSource)
                noSource
                (rawOf (TimeSelectCameraStream.mkConfig "other" "8 o'clock" "18:00"))
                (world0 0%nat) _ eq_refl) as (Hc & _ & _ & Hd & _).
  destruct (Hd (Failure "resource not found") eq_refl) as [He Hk].
  split; [exact He|]. split; [exact Hc | exact Hk].
Defined.
